(** * Irrigo: the irrigation scheduling kernel

    A shallow embedding of [planZoneSchedule] and its helpers
    ([buildCyclePlan], [estimateSoakMinutes], [clampValue],
    [roundTo1Decimal]) from [api/schedules/dynamic], together with the
    properties the specification states about them.

    Numbers.  The kernel is embedded twice, branch for branch from the same
    source, under two readings of a JavaScript number.

    - At the top level a number is an exact rational extended with the three
      IEEE 754 special values [+Infinity], [-Infinity] and [NaN].  Arithmetic
      on finite values is exact.  This reading serves what only compares and
      selects ([estimateSoakMinutes], [clampValue], the rainfall threshold),
      the shape of a plan, and the closed runs of the seed suite, whose
      decimal values it shows as they are written.
    - [Binary64] takes a number as what it is, an IEEE 754 binary64 value, on
      the primitive floats: every operation rounds to nearest, overflows to
      an infinity and underflows to zero, zero has a sign, the counter of the
      cycle loop stops changing at [2 ^ 53], and an instant is a whole number
      of milliseconds or an invalid date.  The general properties of the
      planner and of the water balance are stated and proved on this
      reading.

    Effects.  The two loops of the source become recursive functions on the
    variables they update.  The cycle loop counts up to a number that may be
    infinite, or beyond what its counter reaches; it runs on fuel, and a call
    that would not return yields [None]. *)

From Stdlib Require Import QArith Qround Qreduction ZArith List Sorted Lia Lqa String Bool.
From Stdlib Require Floats.
From Stdlib Require Uint63.
Import ListNotations.

Set Warnings "-inexact-float".

Declare Scope num_scope.
Delimit Scope num_scope with num.

(** ** JavaScript numbers *)

Inductive number : Type :=
  | Fin (q : Q)
  | PosInf
  | NegInf
  | NaN.

Arguments Fin q%_Q.
Bind Scope num_scope with number.

Module Number.

(** Every finite result is stored in lowest terms, so that equal values are
    equal terms. *)
Definition fin (q : Q) : number := Fin (Qred q).

Definition ofNat (n : nat) : number := Fin (inject_Z (Z.of_nat n)).

Definition isFinite (a : number) : bool :=
  match a with Fin _ => true | _ => false end.

Definition neg (a : number) : number :=
  match a with
  | Fin x => fin (- x)
  | PosInf => NegInf
  | NegInf => PosInf
  | NaN => NaN
  end.

Definition add (a b : number) : number :=
  match a, b with
  | NaN, _ | _, NaN => NaN
  | Fin x, Fin y => fin (x + y)
  | PosInf, NegInf | NegInf, PosInf => NaN
  | PosInf, _ | _, PosInf => PosInf
  | NegInf, _ | _, NegInf => NegInf
  end.

Definition sub (a b : number) : number :=
  match a, b with
  | NaN, _ | _, NaN => NaN
  | Fin x, Fin y => fin (x - y)
  | PosInf, PosInf | NegInf, NegInf => NaN
  | PosInf, _ | _, NegInf => PosInf
  | NegInf, _ | _, PosInf => NegInf
  end.

(** [signed c a] is [a] when [c] says "positive", [-a] when it says
    "negative" and [NaN] when it says "zero" (the product [0 * Infinity]). *)
Definition signed (c : comparison) (a : number) : number :=
  match c with
  | Gt => a
  | Lt => neg a
  | Eq => NaN
  end.

Definition mul (a b : number) : number :=
  match a, b with
  | NaN, _ | _, NaN => NaN
  | Fin x, Fin y => fin (x * y)
  | Fin x, PosInf | PosInf, Fin x => signed (x ?= 0) PosInf
  | Fin x, NegInf | NegInf, Fin x => signed (x ?= 0) NegInf
  | PosInf, PosInf | NegInf, NegInf => PosInf
  | PosInf, NegInf | NegInf, PosInf => NegInf
  end.

(** Division.  A finite non-zero value divided by zero is an infinity of
    the dividend's sign, and [0 / 0] is [NaN]. *)
Definition div (a b : number) : number :=
  match a, b with
  | NaN, _ | _, NaN => NaN
  | Fin x, Fin y =>
      if Qeq_bool y 0 then signed (x ?= 0) PosInf else fin (x / y)
  | Fin _, PosInf | Fin _, NegInf => Fin 0
  | PosInf, Fin y => match y ?= 0 with Lt => NegInf | _ => PosInf end
  | NegInf, Fin y => match y ?= 0 with Lt => PosInf | _ => NegInf end
  | _, _ => NaN
  end.

(** [a <= b] and [a < b]; any comparison with [NaN] is false. *)
Definition leb (a b : number) : bool :=
  match a, b with
  | NaN, _ | _, NaN => false
  | Fin x, Fin y => Qle_bool x y
  | NegInf, _ | _, PosInf => true
  | _, _ => false
  end.

Definition ltb (a b : number) : bool :=
  match a, b with
  | NaN, _ | _, NaN => false
  | Fin x, Fin y => negb (Qle_bool y x)
  | PosInf, _ | _, NegInf => false
  | _, _ => true
  end.

(** [Math.max] and [Math.min] of two arguments: [NaN] when either is. *)
Definition Math_max (a b : number) : number :=
  match a, b with
  | NaN, _ | _, NaN => NaN
  | Fin x, Fin y => fin (if Qle_bool x y then y else x)
  | PosInf, _ | _, PosInf => PosInf
  | NegInf, c | c, NegInf => c
  end.

Definition Math_min (a b : number) : number :=
  match a, b with
  | NaN, _ | _, NaN => NaN
  | Fin x, Fin y => fin (if Qle_bool x y then x else y)
  | NegInf, _ | _, NegInf => NegInf
  | PosInf, c | c, PosInf => c
  end.

(** [Math.round]: the nearest integer, a tie going towards [+Infinity]. *)
Definition Math_round (a : number) : number :=
  match a with
  | Fin x => Fin (inject_Z (Qfloor (x + 0.5)))
  | _ => a
  end.

Definition Math_ceil (a : number) : number :=
  match a with
  | Fin x => Fin (inject_Z (Qceiling x))
  | _ => a
  end.

(** The order as propositions. *)
Definition le (a b : number) : Prop := leb a b = true.
Definition lt (a b : number) : Prop := ltb a b = true.

End Number.

Notation "a + b" := (Number.add a b) : num_scope.
Notation "a - b" := (Number.sub a b) : num_scope.
Notation "a * b" := (Number.mul a b) : num_scope.
Notation "a / b" := (Number.div a b) : num_scope.
Notation "a <=? b" := (Number.leb a b) : num_scope.
Notation "a <? b" := (Number.ltb a b) : num_scope.
Notation "a >=? b" := (Number.leb b a) (at level 70) : num_scope.
Notation "a >? b" := (Number.ltb b a) (at level 70) : num_scope.
Notation "a <= b" := (Number.le a b) : num_scope.
Notation "a < b" := (Number.lt a b) : num_scope.
Notation "a <= b <= c" := (Number.le a b /\ Number.le b c) : num_scope.

(** [a ?? b]: the nullish-coalescing operator on an optional field. *)
Definition orElse {A : Type} (a : option A) (b : A) : A :=
  match a with
  | Some v => v
  | None => b
  end.
Notation "a ?? b" := (orElse a b) (at level 45, left associativity).

(** ** The date/time collaborator

    The kernel's date-time values come from an external library (dayjs), of
    which it uses [subtract(n, 'minute')] on a sunrise and
    [hour(6).minute(0).second(0)] on a day's date; the tests add
    [add(n, 'minute')] and the comparisons [isBefore] and [isSame]. *)

(** Modelled from the spec: a date-time value is an instant, a position on a
    time axis measured in minutes ([NaN] is dayjs's Invalid Date). *)
Definition Dayjs : Type := number.

Module DayjsOps.

(** Modelled from the spec: [d.subtract(minutes, 'minute')]. *)
Definition subtract (d : Dayjs) (minutes : number) : Dayjs := (d - minutes)%num.

(** Modelled from the spec: [d.add(minutes, 'minute')]. *)
Definition add (d : Dayjs) (minutes : number) : Dayjs := (d + minutes)%num.

(** Modelled from the spec: chronological comparison, [a.isBefore(b)] and
    [a.isSame(b)]. *)
Definition isBefore (a b : Dayjs) : bool := (a <? b)%num.

Definition isSame (a b : Dayjs) : bool := ((a <=? b) && (b <=? a))%num.

End DayjsOps.

(** Modelled from the spec: setting the clock time of a date is calendar
    arithmetic, which the kernel leaves to the library; it is a parameter
    here.  [atSixOClock d] is [d.hour(6).minute(0).second(0)]. *)
Class Calendar : Type := { atSixOClock : Dayjs -> Dayjs }.

(** ** The data model ([models]) *)

Record GrassType : Type := {
  grassName : string;
  cropCoefficient : number
}.

Record SoilType : Type := {
  soilName : string;
  availableWaterHoldingCapacityMmPerM : number;
  infiltrationRateMmPerHr : number
}.

(** [location] is carried by the source type and never read by the kernel; it
    is left out.  [currentDepletionMm] is read through [??] and is therefore
    optional here. *)
Record Zone : Type := {
  id : string;
  name : string;
  grassType : GrassType;
  soil : SoilType;
  rootDepthM : number;
  allowableDepletionFraction : number;
  irrigationEfficiency : number;
  flowRateLPerMin : number;
  areaM2 : number;
  precipitationRateMmPerHr : option number;
  currentDepletionMm : option number;
  isEnabled : option bool
}.

Record DailyWeather : Type := {
  date : Dayjs;
  evapotranspirationMmPerDay : option number;
  rainfallMm : option number;
  sunrise : option Dayjs
}.

Record IrrigationCycle : Type := {
  startTime : Dayjs;
  durationMin : number
}.

Record IrrigationScheduleEntry : Type := {
  entryDate : Dayjs;
  zoneId : string;
  cycles : list IrrigationCycle;
  appliedDepthMm : number;
  depletionBeforeMm : number;
  depletionAfterMm : number
}.

(** ** Helpers *)

Section Helpers.

Import Number.
Local Open Scope num_scope.

Definition clampValue (value min max : number) : number :=
  Math_max min (Math_min max value).

Definition roundTo1Decimal (value : number) : number :=
  Math_round (value * Fin 10) / Fin 10.

Definition estimateSoakMinutes (infiltrationRateMmHr : number) : number :=
  if infiltrationRateMmHr >=? Fin 20 then Fin 15
  else if infiltrationRateMmHr >=? Fin 12 then Fin 25
  else if infiltrationRateMmHr >=? Fin 8 then Fin 35
  else if infiltrationRateMmHr >=? Fin 5 then Fin 45
  else Fin 60.

End Helpers.

(** ** The cycle planner *)

Section CyclePlanner.

Import Number.
Local Open Scope num_scope.

(** The [for (let i = 0; i < numberOfCycles; i++)] loop of [buildCyclePlan].
    [cyclesInReverse] grows at its end, as [push] does.  The loop is driven
    by [fuel]; [None] says that the test [i < numberOfCycles] still held
    when the fuel ran out. *)
Fixpoint cycleLoop (fuel : nat) (i numberOfCycles perCycleMinutes : number)
    (sunrise : Dayjs) (soakTimeMinutes totalMinutesBeforeSunrise : number)
    (cyclesInReverse : list IrrigationCycle) : option (list IrrigationCycle) :=
  match fuel with
  | O => None
  | S fuel' =>
      if i <? numberOfCycles then
        let cycleStartOffsetMinutes := totalMinutesBeforeSunrise + perCycleMinutes in
        let cycleStart := DayjsOps.subtract sunrise cycleStartOffsetMinutes in
        cycleLoop fuel' (i + Fin 1) numberOfCycles perCycleMinutes sunrise soakTimeMinutes
          (cycleStartOffsetMinutes + soakTimeMinutes)
          (cyclesInReverse ++
             [{| startTime := cycleStart;
                 durationMin := roundTo1Decimal perCycleMinutes |}])
      else Some cyclesInReverse
  end.

(** Fuel that lets the loop run to its end whenever the cycle count is
    finite: one test more than there are iterations.  With an infinite
    count the source never leaves the loop, and no fuel is enough. *)
Definition loopFuel (numberOfCycles : number) : nat :=
  match numberOfCycles with
  | Fin n => S (Z.to_nat (Qceiling n))
  | _ => 1
  end.

Definition buildCyclePlan (totalRunTimeMinutes maximumCycleMinutes : number)
    (sunrise : Dayjs) (soakTimeMinutes : number) : option (list IrrigationCycle) :=
  if totalRunTimeMinutes <=? Fin 0 then Some []
  else if (maximumCycleMinutes <=? Fin 0) || (totalRunTimeMinutes <=? maximumCycleMinutes) then
    let startTime := DayjsOps.subtract sunrise totalRunTimeMinutes in
    Some [{| startTime := startTime;
             durationMin := roundTo1Decimal totalRunTimeMinutes |}]
  else
    let numberOfCycles := Math_ceil (totalRunTimeMinutes / maximumCycleMinutes) in
    let perCycleMinutes := totalRunTimeMinutes / numberOfCycles in
    match cycleLoop (loopFuel numberOfCycles) (Fin 0) numberOfCycles perCycleMinutes
            sunrise soakTimeMinutes (Fin 0) [] with
    | Some cyclesInReverse => Some (rev cyclesInReverse)
    | None => None
    end.

End CyclePlanner.

(** ** The water balance driver *)

Section WaterBalanceDriver.

Context `{Calendar}.
Import Number.
Local Open Scope num_scope.

(** *** The preamble of [planZoneSchedule] *)

Definition totalAvailableWaterMillimeters (zone : Zone) : number :=
  availableWaterHoldingCapacityMmPerM (soil zone) * rootDepthM zone.

Definition readilyAvailableWaterMillimeters (zone : Zone) : number :=
  allowableDepletionFraction zone * totalAvailableWaterMillimeters zone.

Definition precipitationRateMillimetersPerHour (zone : Zone) : number :=
  precipitationRateMmPerHr zone ?? (Fin 60 * (flowRateLPerMin zone / areaM2 zone)).

Definition soakTimeMinutes (zone : Zone) : number :=
  estimateSoakMinutes (infiltrationRateMmPerHr (soil zone)).

Definition initialDepletionMillimeters (zone : Zone) : number :=
  clampValue (currentDepletionMm zone ?? Fin 0) (Fin 0)
    (totalAvailableWaterMillimeters zone).

(** *** One day of the loop: the weather of the day *)

Definition sunriseOf (weatherDay : DailyWeather) : Dayjs :=
  sunrise weatherDay ?? atSixOClock (date weatherDay).

Definition cropEvapotranspiration (zone : Zone) (weatherDay : DailyWeather) : number :=
  let referenceEvapotranspiration :=
    Math_max (Fin 0) (evapotranspirationMmPerDay weatherDay ?? Fin 0) in
  cropCoefficient (grassType zone) * referenceEvapotranspiration.

Definition effectiveRainfallMillimeters (weatherDay : DailyWeather) : number :=
  let rainfallMillimeters := rainfallMm weatherDay ?? Fin 0 in
  if rainfallMillimeters <? Fin 2 then Fin 0 else Fin 0.8 * rainfallMillimeters.

(** The depletion as the trigger test sees it: the running depletion
    advanced by the day's weather. *)
Definition advanceDepletion (zone : Zone) (currentDepletionMillimeters : number)
    (weatherDay : DailyWeather) : number :=
  clampValue
    (currentDepletionMillimeters + cropEvapotranspiration zone weatherDay
     - effectiveRainfallMillimeters weatherDay)
    (Fin 0) (totalAvailableWaterMillimeters zone).

Definition irrigationNeeded (zone : Zone) (currentDepletionMillimeters : number) : bool :=
  currentDepletionMillimeters >=? readilyAvailableWaterMillimeters zone.

(** *** One day of the loop: the irrigation event *)

Definition grossIrrigationDepthMillimeters (zone : Zone)
    (currentDepletionMillimeters : number) : number :=
  let netIrrigationDepthMillimeters := currentDepletionMillimeters in
  Math_min (netIrrigationDepthMillimeters / irrigationEfficiency zone)
    (totalAvailableWaterMillimeters zone).

Definition totalRunTimeMinutes (zone : Zone) (currentDepletionMillimeters : number) : number :=
  (grossIrrigationDepthMillimeters zone currentDepletionMillimeters
   / precipitationRateMillimetersPerHour zone) * Fin 60.

Definition maximumCycleMinutes (zone : Zone) (currentDepletionMillimeters : number) : number :=
  let infiltrationRateMillimetersPerHour := infiltrationRateMmPerHr (soil zone) in
  if infiltrationRateMillimetersPerHour >? Fin 0
  then (infiltrationRateMillimetersPerHour / precipitationRateMillimetersPerHour zone) * Fin 60
  else totalRunTimeMinutes zone currentDepletionMillimeters.

Definition cycleList (zone : Zone) (weatherDay : DailyWeather)
    (currentDepletionMillimeters : number) : option (list IrrigationCycle) :=
  buildCyclePlan
    (totalRunTimeMinutes zone currentDepletionMillimeters)
    (maximumCycleMinutes zone currentDepletionMillimeters)
    (sunriseOf weatherDay)
    (soakTimeMinutes zone).

Definition depletionAfterIrrigation : number := Fin 0.

(** The entry pushed on the schedule when the depletion
    [currentDepletionMillimeters] has triggered irrigation. *)
Definition scheduleEntry (zone : Zone) (weatherDay : DailyWeather)
    (currentDepletionMillimeters : number) : option IrrigationScheduleEntry :=
  let depletionBeforeIrrigation := currentDepletionMillimeters in
  match cycleList zone weatherDay currentDepletionMillimeters with
  | Some cycleList =>
      Some {| entryDate := date weatherDay;
              zoneId := id zone;
              cycles := cycleList;
              appliedDepthMm :=
                roundTo1Decimal
                  (grossIrrigationDepthMillimeters zone currentDepletionMillimeters);
              depletionBeforeMm := roundTo1Decimal depletionBeforeIrrigation;
              depletionAfterMm := roundTo1Decimal depletionAfterIrrigation |}
  | None => None
  end.

(** The depletion carried on after an irrigation: the day's weather applied
    again, to a refilled soil. *)
Definition depletionAfterEvent (zone : Zone) (weatherDay : DailyWeather) : number :=
  clampValue
    (depletionAfterIrrigation + cropEvapotranspiration zone weatherDay
     - effectiveRainfallMillimeters weatherDay)
    (Fin 0) (totalAvailableWaterMillimeters zone).

(** *** The loop *)

(** The body of [for (const weatherDay of weatherHistory)] on the two
    variables it updates, the running depletion and the schedule. *)
Definition processDay (zone : Zone)
    (state : number * list IrrigationScheduleEntry) (weatherDay : DailyWeather)
    : option (number * list IrrigationScheduleEntry) :=
  let '(currentDepletionMillimeters, irrigationSchedule) := state in
  let currentDepletionMillimeters :=
    advanceDepletion zone currentDepletionMillimeters weatherDay in
  if irrigationNeeded zone currentDepletionMillimeters then
    match scheduleEntry zone weatherDay currentDepletionMillimeters with
    | Some entry =>
        let currentDepletionMillimeters := depletionAfterEvent zone weatherDay in
        Some (clampValue currentDepletionMillimeters (Fin 0)
                (totalAvailableWaterMillimeters zone),
              irrigationSchedule ++ [entry])
    | None => None
    end
  else
    Some (clampValue currentDepletionMillimeters (Fin 0)
            (totalAvailableWaterMillimeters zone),
          irrigationSchedule).

Fixpoint processDays (zone : Zone)
    (state : number * list IrrigationScheduleEntry) (weatherHistory : list DailyWeather)
    : option (number * list IrrigationScheduleEntry) :=
  match weatherHistory with
  | [] => Some state
  | weatherDay :: rest =>
      match processDay zone state weatherDay with
      | Some state' => processDays zone state' rest
      | None => None
      end
  end.

(** [None] stands for a call that does not return: some day's cycle loop
    never ends. *)
Definition planZoneSchedule (zone : Zone) (weatherHistory : list DailyWeather)
    : option (list IrrigationScheduleEntry) :=
  match isEnabled zone with
  | Some false => Some []
  | _ =>
      match processDays zone (initialDepletionMillimeters zone, []) weatherHistory with
      | Some (_, irrigationSchedule) => Some irrigationSchedule
      | None => None
      end
  end.

End WaterBalanceDriver.

(** A calendar for closed examples: the time axis starts at a midnight and
    every day has 1440 minutes. *)
Definition uniformSixOClock (d : Dayjs) : Dayjs :=
  match d with
  | Fin q => Number.fin (inject_Z (Qfloor (q / 1440)) * 1440 + 360)
  | _ => NaN
  end.

Definition uniformCalendar : Calendar := {| atSixOClock := uniformSixOClock |}.

Definition testZone : Zone := {|
  id := "test-zone-001";
  name := "Test Zone";
  grassType := {| grassName := "Kentucky Bluegrass"; cropCoefficient := Fin 0.85 |};
  soil := {| soilName := "Loam";
             availableWaterHoldingCapacityMmPerM := Fin 150;
             infiltrationRateMmPerHr := Fin 25 |};
  rootDepthM := Fin 0.3;
  allowableDepletionFraction := Fin 0.5;
  irrigationEfficiency := Fin 0.8;
  flowRateLPerMin := Fin 15;
  areaM2 := Fin 100;
  precipitationRateMmPerHr := Some (Fin 9);
  currentDepletionMm := Some (Fin 0);
  isEnabled := Some true
|}.

Definition withDepletion (z : Zone) (d : number) : Zone := {|
  id := id z; name := name z; grassType := grassType z; soil := soil z;
  rootDepthM := rootDepthM z; allowableDepletionFraction := allowableDepletionFraction z;
  irrigationEfficiency := irrigationEfficiency z; flowRateLPerMin := flowRateLPerMin z;
  areaM2 := areaM2 z; precipitationRateMmPerHr := precipitationRateMmPerHr z;
  currentDepletionMm := Some d; isEnabled := isEnabled z |}.

(** Day [n] of a dry period ([createDryPeriod]): no rain, sunrise at 06:00.
    Day 0 starts at minute 0 of the time axis. *)
Definition dryDay (n : nat) (et : number) : DailyWeather := {|
  date := Number.ofNat (n * 1440);
  evapotranspirationMmPerDay := Some et;
  rainfallMm := Some (Fin 0);
  sunrise := Some (Number.ofNat (n * 1440 + 360)) |}.

Definition createDryPeriod (days : nat) (etPerDay : number) : list DailyWeather :=
  map (fun n => dryDay n etPerDay) (seq 0 days).


(** The zone of the seed suite with an initial depletion of 25 mm. *)
Definition seedZone : Zone := withDepletion testZone (Fin 25).

(** The zone of the seed suite on a soil that takes no water in: an
    infiltration rate of 0 mm/hr. *)
Definition sealedZone : Zone := {|
  id := id seedZone; name := name seedZone; grassType := grassType seedZone;
  soil := {| soilName := soilName (soil seedZone);
             availableWaterHoldingCapacityMmPerM :=
               availableWaterHoldingCapacityMmPerM (soil seedZone);
             infiltrationRateMmPerHr := Fin 0 |};
  rootDepthM := rootDepthM seedZone;
  allowableDepletionFraction := allowableDepletionFraction seedZone;
  irrigationEfficiency := irrigationEfficiency seedZone;
  flowRateLPerMin := flowRateLPerMin seedZone; areaM2 := areaM2 seedZone;
  precipitationRateMmPerHr := precipitationRateMmPerHr seedZone;
  currentDepletionMm := currentDepletionMm seedZone; isEnabled := isEnabled seedZone |}.

(** ** The specification's vocabulary *)

Section SpecificationVocabulary.

Import Number.
Local Open Scope num_scope.

(** The cycle plan in the specification's words: counting from the latest,
    cycle [i] ends [(i - 1) * (d + K)] minutes before the sunrise anchor and
    starts [d] minutes before that; its reported duration is [d] rounded to
    one decimal. *)
Definition plannedCycle (d : number) (S : Dayjs) (K : number) (i : nat) : IrrigationCycle :=
  let cycleEnd := DayjsOps.subtract S (ofNat (i - 1) * (d + K)) in
  {| startTime := DayjsOps.subtract cycleEnd d;
     durationMin := roundTo1Decimal d |}.

(** The unrounded duration of each cycle of a plan: the whole runtime when
    one cycle is enough, an equal share of it otherwise. *)
Definition exactCycleMinutes (T M : number) : number :=
  if (M <=? Fin 0) || (T <=? M) then T else T / Math_ceil (T / M).

End SpecificationVocabulary.

(** ** Further vocabulary *)

(** [Subsequence l1 l2]: [l1] is [l2] with some elements left out, the others
    in their order. *)
Inductive Subsequence {A : Type} : list A -> list A -> Prop :=
  | Subsequence_nil : Subsequence [] []
  | Subsequence_skip (x : A) (l1 l2 : list A) :
      Subsequence l1 l2 -> Subsequence l1 (x :: l2)
  | Subsequence_keep (x : A) (l1 l2 : list A) :
      Subsequence l1 l2 -> Subsequence (x :: l1) (x :: l2).

(** ** The agronomic catalogues ([data/grass], [data/soil]) *)

(** A call that returns a value or throws an [Error] with a message. *)
Inductive result (A : Type) : Type :=
  | Ok (value : A)
  | Throw (message : string).

Arguments Ok {A} value.
Arguments Throw {A} message.

(** The double-quote character of the error messages. *)
Definition doubleQuote : string := String (Ascii.ascii_of_nat 34) EmptyString.

Module GrassCatalogue.

Local Open Scope string_scope.

Record GrowthStage : Type := {
  stage : string;
  stageDescription : string;
  monthRanges : list string;
  cropCoefficient : number
}.

Record Grass : Type := {
  name : string;
  label : string;
  description : string;
  climateZones : list string;
  growthStages : list GrowthStage
}.

Definition growthStage (s d : string) (m : list string) (kc : number) : GrowthStage :=
  {| stage := s; stageDescription := d; monthRanges := m; cropCoefficient := kc |}.

Definition grassData : list Grass := [
  {| name := "kentucky-bluegrass";
     label := "Kentucky Bluegrass";
     description := "Cool-season grass, popular in northern climates. Dense, fine-textured turf.";
     climateZones := ["cool"; "transition"];
     growthStages := [
       growthStage "dormant" "Winter dormancy, minimal growth" ["Nov-Mar"] (Fin 0.5);
       growthStage "spring-greenup" "Early spring growth initiation" ["Mar-Apr"] (Fin 0.7);
       growthStage "active-growth" "Peak growing season" ["Apr-Jun"; "Sep-Oct"] (Fin 0.95);
       growthStage "summer-stress" "Heat stress period, reduced growth" ["Jul-Aug"] (Fin 0.85);
       growthStage "fall-transition" "Cooling down, preparing for dormancy" ["Oct-Nov"] (Fin 0.7)
     ] |};
  {| name := "perennial-ryegrass";
     label := "Perennial Ryegrass";
     description := "Cool-season grass, quick establishment, wear-tolerant.";
     climateZones := ["cool"; "transition"];
     growthStages := [
       growthStage "dormant" "Winter dormancy" ["Dec-Feb"] (Fin 0.5);
       growthStage "spring-greenup" "Early spring growth" ["Mar-Apr"] (Fin 0.75);
       growthStage "active-growth" "Peak growing season" ["Apr-Jun"; "Sep-Oct"] (Fin 0.95);
       growthStage "summer-moderate" "Moderate summer growth" ["Jul-Aug"] (Fin 0.85);
       growthStage "fall-transition" "Fall growth before dormancy" ["Oct-Nov"] (Fin 0.75)
     ] |};
  {| name := "tall-fescue";
     label := "Tall Fescue";
     description := "Cool-season grass, deep-rooted, drought-tolerant.";
     climateZones := ["cool"; "transition"; "warm"];
     growthStages := [
       growthStage "dormant" "Winter semi-dormancy" ["Dec-Feb"] (Fin 0.6);
       growthStage "spring-growth" "Spring active growth" ["Mar-May"] (Fin 0.85);
       growthStage "active-growth" "Peak growing season" ["Apr-Jun"; "Sep-Oct"] (Fin 0.9);
       growthStage "summer-maintenance" "Summer maintenance, good heat tolerance" ["Jun-Aug"] (Fin 0.8);
       growthStage "fall-growth" "Fall recovery and growth" ["Sep-Nov"] (Fin 0.85)
     ] |};
  {| name := "bermudagrass";
     label := "Bermudagrass";
     description := "Warm-season grass, heat and drought tolerant, aggressive growth.";
     climateZones := ["warm"; "transition"];
     growthStages := [
       growthStage "dormant" "Winter dormancy, brown and inactive" ["Nov-Mar"] (Fin 0.4);
       growthStage "spring-greenup" "Breaking dormancy, greening up" ["Mar-Apr"] (Fin 0.65);
       growthStage "early-growth" "Rapid growth initiation" ["Apr-May"] (Fin 0.8);
       growthStage "peak-growth" "Maximum growth and water demand" ["Jun-Aug"] (Fin 1.0);
       growthStage "late-season" "Slowing growth, preparing for dormancy" ["Sep-Oct"] (Fin 0.75);
       growthStage "fall-transition" "Entering dormancy" ["Oct-Nov"] (Fin 0.55)
     ] |};
  {| name := "st-augustine";
     label := "St. Augustine";
     description := "Warm-season grass, shade-tolerant, coarse texture.";
     climateZones := ["warm"; "tropical"];
     growthStages := [
       growthStage "dormant" "Winter dormancy in cooler regions" ["Dec-Feb"] (Fin 0.5);
       growthStage "spring-greenup" "Spring green-up" ["Mar-Apr"] (Fin 0.7);
       growthStage "active-growth" "Peak growing season" ["May-Sep"] (Fin 0.9);
       growthStage "summer-peak" "Maximum water demand" ["Jun-Aug"] (Fin 0.95);
       growthStage "fall-slowdown" "Declining growth rate" ["Oct-Nov"] (Fin 0.7)
     ] |};
  {| name := "zoysiagrass";
     label := "Zoysiagrass";
     description := "Warm-season grass, dense growth, moderate water needs.";
     climateZones := ["warm"; "transition"];
     growthStages := [
       growthStage "dormant" "Winter dormancy, straw-colored" ["Nov-Mar"] (Fin 0.45);
       growthStage "spring-greenup" "Late spring green-up" ["Apr-May"] (Fin 0.7);
       growthStage "active-growth" "Summer active growth" ["Jun-Aug"] (Fin 0.85);
       growthStage "peak-growth" "Peak summer growth" ["Jul-Aug"] (Fin 0.9);
       growthStage "fall-transition" "Preparing for dormancy" ["Sep-Oct"] (Fin 0.65)
     ] |};
  {| name := "buffalo-grass";
     label := "Buffalo Grass";
     description := "Warm-season native grass, extremely drought-tolerant, low maintenance.";
     climateZones := ["warm"; "arid"];
     growthStages := [
       growthStage "dormant" "Winter dormancy" ["Nov-Mar"] (Fin 0.4);
       growthStage "spring-greenup" "Late spring green-up" ["Apr-May"] (Fin 0.6);
       growthStage "active-growth" "Summer growth period" ["Jun-Aug"] (Fin 0.75);
       growthStage "fall-transition" "Early fall transition to dormancy" ["Sep-Oct"] (Fin 0.55)
     ] |};
  {| name := "fine-fescue-mix";
     label := "Fine Fescue Mix";
     description := "Cool-season grasses, shade and drought tolerant, fine texture.";
     climateZones := ["cool"];
     growthStages := [
       growthStage "winter-slowdown" "Winter slow growth" ["Dec-Feb"] (Fin 0.55);
       growthStage "spring-growth" "Spring active growth" ["Mar-May"] (Fin 0.85);
       growthStage "active-growth" "Peak cool-season growth" ["Apr-Jun"; "Sep-Oct"] (Fin 0.9);
       growthStage "summer-dormancy" "Summer dormancy in heat" ["Jul-Aug"] (Fin 0.65);
       growthStage "fall-recovery" "Fall recovery growth" ["Sep-Nov"] (Fin 0.8)
     ] |}
].

(** [grassData.find(grass => grass.name === name)], then the throw. *)
Definition findGrassByName (name' : string) : result Grass :=
  match find (fun grass => String.eqb (name grass) name') grassData with
  | Some grass => Ok grass
  | None =>
      Throw ("Grass type " ++ doubleQuote ++ name' ++ doubleQuote ++ " not found")%string
  end.

End GrassCatalogue.

Module SoilCatalogue.

Local Open Scope string_scope.

Record SoilCharacteristics : Type := {
  drainage : string;
  waterRetention : string;
  workability : string;
  compaction : string
}.

Record Soil : Type := {
  name : string;
  label : string;
  description : string;
  texture : string;
  availableWaterHoldingCapacityMmPerM : number;
  infiltrationRateMmPerHr : number;
  characteristics : SoilCharacteristics;
  irrigationNotes : string
}.

(** [soilData] is the content of [lookup.json], which is not part of the
    sources: the lookup takes it as a parameter. *)
Definition findSoilByName (soilData : list Soil) (name' : string) : result Soil :=
  match find (fun soil => String.eqb (name soil) name') soilData with
  | Some soil => Ok soil
  | None =>
      Throw ("Soil type " ++ doubleQuote ++ name' ++ doubleQuote ++ " not found.")%string
  end.

End SoilCatalogue.

(** * The kernel in binary64 arithmetic

    The same functions once more, with a JavaScript number as what it is: an
    IEEE 754 binary64 value.  Every sum, difference, product and quotient is
    rounded to nearest, ties to even; it can overflow to an infinity and
    underflow to zero; zero has a sign.  The numbers are Rocq's primitive
    floats, whose operations are those of the processor and whose meaning is
    given by the library's [Prim2SF]. *)

Module Binary64.

Import Floats.
Local Open Scope float_scope.

(** ** JavaScript numbers *)

Definition number : Type := float.

Notation "a >=? b" := (PrimFloat.leb b a) (at level 70) : float_scope.
Notation "a >? b" := (PrimFloat.ltb b a) (at level 70) : float_scope.

(** A finite float is [signedMantissa s m * 2 ^ e]. *)
Definition signedMantissa (s : bool) (m : positive) : Z :=
  if s then Zneg m else Zpos m.

(** The float of a whole number of sign [s], a zero taking that sign too.  The
    whole numbers met below are smaller than [2 ^ 53] in size and have a float
    of their own. *)
Definition ofInteger (s : bool) (z : Z) : number :=
  let magnitude := of_uint63 (Uint63Axioms.of_Z (Z.abs z)) in
  if s then - magnitude else magnitude.

(** [Math.max] and [Math.min] of two arguments: [NaN] when either is, and
    [-0] is smaller than [+0]. *)
Definition Math_max (a b : number) : number :=
  if is_nan a || is_nan b then nan
  else if a <? b then b
  else if b <? a then a
  else if get_sign a then b else a.

Definition Math_min (a b : number) : number :=
  if is_nan a || is_nan b then nan
  else if a <? b then a
  else if b <? a then b
  else if get_sign a then a else b.

(** [Math.round]: the nearest whole number, a tie going towards [+Infinity];
    a value in [[-0.5, 0)] gives [-0].  A float with a non-negative exponent
    is whole already. *)
Definition Math_round (a : number) : number :=
  match Prim2SF a with
  | S754_finite s m e =>
      if (0 <=? e)%Z then a
      else ofInteger s ((2 * signedMantissa s m + 2 ^ (- e)) / (2 * 2 ^ (- e)))%Z
  | _ => a
  end.

(** [Math.ceil]: the least whole number that is not smaller; a value in
    [(-1, 0)] gives [-0]. *)
Definition Math_ceil (a : number) : number :=
  match Prim2SF a with
  | S754_finite s m e =>
      if (0 <=? e)%Z then a
      else ofInteger s (- ((- signedMantissa s m) / 2 ^ (- e)))%Z
  | _ => a
  end.

(** ** The date/time collaborator

    A dayjs value wraps a JavaScript [Date], whose time value is a whole
    number of milliseconds of size at most 8.64e15, or [NaN] for an invalid
    date.  [add(n, 'minute')] builds the date of the time value plus
    [n * 60000], computed on numbers, and [subtract(n, 'minute')] is
    [add(n * -1, 'minute')]; building a date cuts the fraction of a
    millisecond off and makes anything out of range or not finite an invalid
    date.  The library is not part of the sources. *)
Definition Dayjs : Type := option Z.

Definition maxTimeValue : Z := 8640000000000000.

(** The time value of [new Date(t)]. *)
Definition timeClip (t : number) : Dayjs :=
  match Prim2SF t with
  | S754_zero _ => Some 0%Z
  | S754_finite s m e =>
      let z := if (0 <=? e)%Z then (signedMantissa s m * 2 ^ e)%Z
               else Z.quot (signedMantissa s m) (2 ^ (- e)) in
      if (Z.abs z <=? maxTimeValue)%Z then Some z else None
  | _ => None
  end.

(** [d.valueOf()]. *)
Definition getTime (d : Dayjs) : number :=
  match d with
  | Some milliseconds => ofInteger (milliseconds <? 0)%Z milliseconds
  | None => nan
  end.

Module DayjsOps.

Definition add (d : Dayjs) (minutes : number) : Dayjs :=
  timeClip (getTime d + minutes * 60000).

Definition subtract (d : Dayjs) (minutes : number) : Dayjs :=
  add d (minutes * (-1)).

End DayjsOps.

(** Setting the clock time of a date is calendar arithmetic in the local time
    zone, which the kernel leaves to the library; it is a parameter.
    [atSixOClock d] is [d.hour(6).minute(0).second(0)]. *)
Class Calendar : Type := { atSixOClock : Dayjs -> Dayjs }.

(** ** The data model ([models]) *)

Record GrassType : Type := {
  grassName : string;
  cropCoefficient : number
}.

Record SoilType : Type := {
  soilName : string;
  availableWaterHoldingCapacityMmPerM : number;
  infiltrationRateMmPerHr : number
}.

Record Zone : Type := {
  id : string;
  name : string;
  grassType : GrassType;
  soil : SoilType;
  rootDepthM : number;
  allowableDepletionFraction : number;
  irrigationEfficiency : number;
  flowRateLPerMin : number;
  areaM2 : number;
  precipitationRateMmPerHr : option number;
  currentDepletionMm : option number;
  isEnabled : option bool
}.

Record DailyWeather : Type := {
  date : Dayjs;
  evapotranspirationMmPerDay : option number;
  rainfallMm : option number;
  sunrise : option Dayjs
}.

Record IrrigationCycle : Type := {
  startTime : Dayjs;
  durationMin : number
}.

Record IrrigationScheduleEntry : Type := {
  entryDate : Dayjs;
  zoneId : string;
  cycles : list IrrigationCycle;
  appliedDepthMm : number;
  depletionBeforeMm : number;
  depletionAfterMm : number
}.

(** ** Helpers *)

Definition clampValue (value min max : number) : number :=
  Math_max min (Math_min max value).

Definition roundTo1Decimal (value : number) : number :=
  Math_round (value * 10) / 10.

Definition estimateSoakMinutes (infiltrationRateMmHr : number) : number :=
  if infiltrationRateMmHr >=? 20 then 15
  else if infiltrationRateMmHr >=? 12 then 25
  else if infiltrationRateMmHr >=? 8 then 35
  else if infiltrationRateMmHr >=? 5 then 45
  else 60.

(** ** The cycle planner *)

(** The counter [i] of [for (let i = 0; i < numberOfCycles; i++)] takes whole
    values only, and is kept as the whole number it is.  Up to [2 ^ 53] every
    whole number is a float and [i++] is exact; at [2 ^ 53] the sum [i + 1]
    rounds back to [i], and the counter stands still. *)
Definition increment (i : Z) : Z :=
  if (i <? 2 ^ 53)%Z then (i + 1)%Z else i.

(** The test [i < numberOfCycles]: a comparison of floats is the comparison
    of their values, here of the whole number [i] with the value of
    [numberOfCycles]. *)
Definition counterBelow (i : Z) (numberOfCycles : number) : bool :=
  match Prim2SF numberOfCycles with
  | S754_nan => false
  | S754_infinity s => negb s
  | S754_zero _ => (i <? 0)%Z
  | S754_finite s m e =>
      if (0 <=? e)%Z then (i <? signedMantissa s m * 2 ^ e)%Z
      else (i * 2 ^ (- e) <? signedMantissa s m)%Z
  end.

(** The loop.  [cyclesInReverse] grows at its end, as [push] does.  The loop
    is driven by [fuel]; [None] says that the test still held when the fuel
    ran out. *)
Fixpoint cycleLoop (fuel : nat) (i : Z) (numberOfCycles perCycleMinutes : number)
    (sunrise : Dayjs) (soakTimeMinutes totalMinutesBeforeSunrise : number)
    (cyclesInReverse : list IrrigationCycle) : option (list IrrigationCycle) :=
  match fuel with
  | O => None
  | S fuel' =>
      if counterBelow i numberOfCycles then
        let cycleStartOffsetMinutes := totalMinutesBeforeSunrise + perCycleMinutes in
        let cycleStart := DayjsOps.subtract sunrise cycleStartOffsetMinutes in
        cycleLoop fuel' (increment i) numberOfCycles perCycleMinutes sunrise soakTimeMinutes
          (cycleStartOffsetMinutes + soakTimeMinutes)
          (cyclesInReverse ++
             [{| startTime := cycleStart;
                 durationMin := roundTo1Decimal perCycleMinutes |}])
      else Some cyclesInReverse
  end.

(** The number of times the loop goes round when it ends: as many as there
    are whole numbers from 0 below [numberOfCycles].  It does not end when
    that takes the counter past [2 ^ 53], where it stands still, nor when
    [numberOfCycles] is [+Infinity]. *)
Definition iterations (numberOfCycles : number) : option Z :=
  match Prim2SF numberOfCycles with
  | S754_infinity false => None
  | S754_finite s m e =>
      let bound := if (0 <=? e)%Z then (signedMantissa s m * 2 ^ e)%Z
                   else (- ((- signedMantissa s m) / 2 ^ (- e)))%Z in
      if (bound <=? 0)%Z then Some 0%Z
      else if (bound <=? 2 ^ 53)%Z then Some bound
      else None
  | _ => Some 0%Z
  end.

(** Fuel that lets the loop run to its end whenever it has one. *)
Definition loopFuel (numberOfCycles : number) : nat :=
  match iterations numberOfCycles with
  | Some n => S (Z.to_nat n)
  | None => 0
  end.

Definition buildCyclePlan (totalRunTimeMinutes maximumCycleMinutes : number)
    (sunrise : Dayjs) (soakTimeMinutes : number) : option (list IrrigationCycle) :=
  if totalRunTimeMinutes <=? 0 then Some []
  else if (maximumCycleMinutes <=? 0) || (totalRunTimeMinutes <=? maximumCycleMinutes) then
    let startTime := DayjsOps.subtract sunrise totalRunTimeMinutes in
    Some [{| startTime := startTime;
             durationMin := roundTo1Decimal totalRunTimeMinutes |}]
  else
    let numberOfCycles := Math_ceil (totalRunTimeMinutes / maximumCycleMinutes) in
    let perCycleMinutes := totalRunTimeMinutes / numberOfCycles in
    match cycleLoop (loopFuel numberOfCycles) 0 numberOfCycles perCycleMinutes
            sunrise soakTimeMinutes 0 [] with
    | Some cyclesInReverse => Some (rev cyclesInReverse)
    | None => None
    end.

(** ** The water balance driver *)

Section WaterBalanceDriver.

Context `{Calendar}.

Definition totalAvailableWaterMillimeters (zone : Zone) : number :=
  availableWaterHoldingCapacityMmPerM (soil zone) * rootDepthM zone.

Definition readilyAvailableWaterMillimeters (zone : Zone) : number :=
  allowableDepletionFraction zone * totalAvailableWaterMillimeters zone.

Definition precipitationRateMillimetersPerHour (zone : Zone) : number :=
  precipitationRateMmPerHr zone ?? (60 * (flowRateLPerMin zone / areaM2 zone)).

Definition soakTimeMinutes (zone : Zone) : number :=
  estimateSoakMinutes (infiltrationRateMmPerHr (soil zone)).

Definition initialDepletionMillimeters (zone : Zone) : number :=
  clampValue (currentDepletionMm zone ?? 0) 0 (totalAvailableWaterMillimeters zone).

Definition sunriseOf (weatherDay : DailyWeather) : Dayjs :=
  sunrise weatherDay ?? atSixOClock (date weatherDay).

Definition cropEvapotranspiration (zone : Zone) (weatherDay : DailyWeather) : number :=
  let referenceEvapotranspiration :=
    Math_max 0 (evapotranspirationMmPerDay weatherDay ?? 0) in
  cropCoefficient (grassType zone) * referenceEvapotranspiration.

Definition effectiveRainfallMillimeters (weatherDay : DailyWeather) : number :=
  let rainfallMillimeters := rainfallMm weatherDay ?? 0 in
  if rainfallMillimeters <? 2 then 0 else 0.8 * rainfallMillimeters.

Definition advanceDepletion (zone : Zone) (currentDepletionMillimeters : number)
    (weatherDay : DailyWeather) : number :=
  clampValue
    (currentDepletionMillimeters + cropEvapotranspiration zone weatherDay
     - effectiveRainfallMillimeters weatherDay)
    0 (totalAvailableWaterMillimeters zone).

Definition irrigationNeeded (zone : Zone) (currentDepletionMillimeters : number) : bool :=
  currentDepletionMillimeters >=? readilyAvailableWaterMillimeters zone.

Definition grossIrrigationDepthMillimeters (zone : Zone)
    (currentDepletionMillimeters : number) : number :=
  let netIrrigationDepthMillimeters := currentDepletionMillimeters in
  Math_min (netIrrigationDepthMillimeters / irrigationEfficiency zone)
    (totalAvailableWaterMillimeters zone).

Definition totalRunTimeMinutes (zone : Zone) (currentDepletionMillimeters : number) : number :=
  (grossIrrigationDepthMillimeters zone currentDepletionMillimeters
   / precipitationRateMillimetersPerHour zone) * 60.

Definition maximumCycleMinutes (zone : Zone) (currentDepletionMillimeters : number) : number :=
  let infiltrationRateMillimetersPerHour := infiltrationRateMmPerHr (soil zone) in
  if infiltrationRateMillimetersPerHour >? 0
  then (infiltrationRateMillimetersPerHour / precipitationRateMillimetersPerHour zone) * 60
  else totalRunTimeMinutes zone currentDepletionMillimeters.

Definition cycleList (zone : Zone) (weatherDay : DailyWeather)
    (currentDepletionMillimeters : number) : option (list IrrigationCycle) :=
  buildCyclePlan
    (totalRunTimeMinutes zone currentDepletionMillimeters)
    (maximumCycleMinutes zone currentDepletionMillimeters)
    (sunriseOf weatherDay)
    (soakTimeMinutes zone).

Definition depletionAfterIrrigation : number := 0.

Definition scheduleEntry (zone : Zone) (weatherDay : DailyWeather)
    (currentDepletionMillimeters : number) : option IrrigationScheduleEntry :=
  let depletionBeforeIrrigation := currentDepletionMillimeters in
  match cycleList zone weatherDay currentDepletionMillimeters with
  | Some cycleList =>
      Some {| entryDate := date weatherDay;
              zoneId := id zone;
              cycles := cycleList;
              appliedDepthMm :=
                roundTo1Decimal
                  (grossIrrigationDepthMillimeters zone currentDepletionMillimeters);
              depletionBeforeMm := roundTo1Decimal depletionBeforeIrrigation;
              depletionAfterMm := roundTo1Decimal depletionAfterIrrigation |}
  | None => None
  end.

Definition depletionAfterEvent (zone : Zone) (weatherDay : DailyWeather) : number :=
  clampValue
    (depletionAfterIrrigation + cropEvapotranspiration zone weatherDay
     - effectiveRainfallMillimeters weatherDay)
    0 (totalAvailableWaterMillimeters zone).

Definition processDay (zone : Zone)
    (state : number * list IrrigationScheduleEntry) (weatherDay : DailyWeather)
    : option (number * list IrrigationScheduleEntry) :=
  let '(currentDepletionMillimeters, irrigationSchedule) := state in
  let currentDepletionMillimeters :=
    advanceDepletion zone currentDepletionMillimeters weatherDay in
  if irrigationNeeded zone currentDepletionMillimeters then
    match scheduleEntry zone weatherDay currentDepletionMillimeters with
    | Some entry =>
        let currentDepletionMillimeters := depletionAfterEvent zone weatherDay in
        Some (clampValue currentDepletionMillimeters 0
                (totalAvailableWaterMillimeters zone),
              irrigationSchedule ++ [entry])
    | None => None
    end
  else
    Some (clampValue currentDepletionMillimeters 0
            (totalAvailableWaterMillimeters zone),
          irrigationSchedule).

Fixpoint processDays (zone : Zone)
    (state : number * list IrrigationScheduleEntry) (weatherHistory : list DailyWeather)
    : option (number * list IrrigationScheduleEntry) :=
  match weatherHistory with
  | [] => Some state
  | weatherDay :: rest =>
      match processDay zone state weatherDay with
      | Some state' => processDays zone state' rest
      | None => None
      end
  end.

(** [None] stands for a call that does not return: some day's cycle loop
    never ends. *)
Definition planZoneSchedule (zone : Zone) (weatherHistory : list DailyWeather)
    : option (list IrrigationScheduleEntry) :=
  match isEnabled zone with
  | Some false => Some []
  | _ =>
      match processDays zone (initialDepletionMillimeters zone, []) weatherHistory with
      | Some (_, irrigationSchedule) => Some irrigationSchedule
      | None => None
      end
  end.

End WaterBalanceDriver.

(** ** Examples: the fixtures of the test suite *)

(** A calendar for closed examples: the time axis starts at a midnight and
    every day has 86400000 milliseconds. *)
Definition uniformSixOClock (d : Dayjs) : Dayjs :=
  match d with
  | Some milliseconds =>
      Some (milliseconds / 86400000 * 86400000 + 21600000 + milliseconds mod 1000)%Z
  | None => None
  end.

Definition uniformCalendar : Calendar := {| atSixOClock := uniformSixOClock |}.

Definition testZone : Zone := {|
  id := "test-zone-001";
  name := "Test Zone";
  grassType := {| grassName := "Kentucky Bluegrass"; cropCoefficient := 0.85 |};
  soil := {| soilName := "Loam";
             availableWaterHoldingCapacityMmPerM := 150;
             infiltrationRateMmPerHr := 25 |};
  rootDepthM := 0.3;
  allowableDepletionFraction := 0.5;
  irrigationEfficiency := 0.8;
  flowRateLPerMin := 15;
  areaM2 := 100;
  precipitationRateMmPerHr := Some 9;
  currentDepletionMm := Some 0;
  isEnabled := Some true
|}.

Definition withDepletion (z : Zone) (d : number) : Zone := {|
  id := id z; name := name z; grassType := grassType z; soil := soil z;
  rootDepthM := rootDepthM z; allowableDepletionFraction := allowableDepletionFraction z;
  irrigationEfficiency := irrigationEfficiency z; flowRateLPerMin := flowRateLPerMin z;
  areaM2 := areaM2 z; precipitationRateMmPerHr := precipitationRateMmPerHr z;
  currentDepletionMm := Some d; isEnabled := isEnabled z |}.


(** Day [n] of a dry period ([createDryPeriod]): no rain, sunrise at 06:00. *)
Definition dryDay (n : Z) (et : number) : DailyWeather := {|
  date := Some (n * 86400000)%Z;
  evapotranspirationMmPerDay := Some et;
  rainfallMm := Some 0;
  sunrise := Some (Some (n * 86400000 + 21600000)%Z) |}.

Definition createDryPeriod (days : nat) (etPerDay : number) : list DailyWeather :=
  map (fun n => dryDay (Z.of_nat n) etPerDay) (seq 0 days).

(** The zone of the seed suite with an initial depletion of 25 mm. *)
Definition seedZone : Zone := withDepletion testZone 25.

Definition withEfficiency (z : Zone) (efficiency : number) : Zone := {|
  id := id z; name := name z; grassType := grassType z; soil := soil z;
  rootDepthM := rootDepthM z; allowableDepletionFraction := allowableDepletionFraction z;
  irrigationEfficiency := efficiency; flowRateLPerMin := flowRateLPerMin z;
  areaM2 := areaM2 z; precipitationRateMmPerHr := precipitationRateMmPerHr z;
  currentDepletionMm := currentDepletionMm z; isEnabled := isEnabled z |}.


(** A zone whose low efficiency makes the cap on the gross depth bind: 40 mm of
    depletion at an efficiency of 0.5 would take 80 mm, against a TAW of 45. *)
Definition cappedZone : Zone := withEfficiency (withDepletion testZone 40) 0.5.



(** ** Classes of numbers

    Predicates on what [Prim2SF] shows of a float. *)

(** A number: anything but [NaN]. *)
Definition isNumber (x : spec_float) : bool :=
  match x with
  | S754_nan => false
  | _ => true
  end.

(** A zero or a finite number. *)
Definition isFiniteNumber (x : spec_float) : bool :=
  match x with
  | S754_zero _ | S754_finite _ _ _ => true
  | _ => false
  end.

(** Zero of either sign, a positive number or [+Infinity]: what [0 <= x]
    says. *)
Definition notNegative (x : spec_float) : bool :=
  match x with
  | S754_zero _ | S754_finite false _ _ | S754_infinity false => true
  | _ => false
  end.

(** A positive number or [+Infinity]: what [0 < x] says. *)
Definition isPositive (x : spec_float) : bool :=
  match x with
  | S754_finite false _ _ | S754_infinity false => true
  | _ => false
  end.

(** Anything but a finite number below zero. *)
Definition notBelowZero (x : spec_float) : bool :=
  match x with
  | S754_finite true _ _ => false
  | _ => true
  end.

(** A zero, a finite number or an infinity of sign [s]. *)
Definition hasSign (s : bool) (x : spec_float) : bool :=
  match x with
  | S754_zero s' | S754_infinity s' | S754_finite s' _ _ => Bool.eqb s s'
  | S754_nan => false
  end.

(** ** The vocabulary of the properties *)

Section Vocabulary.

Context `{Calendar}.

(** [totalMinutesBeforeSunrise] after [k] turns of the cycle loop: each turn
    adds the cycle and then the soak, in binary64. *)
Fixpoint totalMinutesBefore (d K : number) (k : nat) : number :=
  match k with
  | O => 0
  | S k' => (totalMinutesBefore d K k' + d) + K
  end.

(** Cycle [i] of a plan, counted from the latest: it starts the cycles and
    soaks of the [i - 1] later cycles, and its own duration, before the
    sunrise anchor, and reports its duration rounded to one decimal. *)
Definition plannedCycle (d : number) (S : Dayjs) (K : number) (i : nat) : IrrigationCycle :=
  {| startTime := DayjsOps.subtract S (totalMinutesBefore d K (i - 1) + d);
     durationMin := roundTo1Decimal d |}.


(** [triggerDepletion zone weatherHistory weatherDay D]: on [weatherDay], a day
    of the history, the trigger test sees the depletion [D] - the depletion
    the loop carries out of the days before, advanced by the day's weather. *)
Definition triggerDepletion (zone : Zone) (weatherHistory : list DailyWeather)
    (weatherDay : DailyWeather) (D : number) : Prop :=
  exists before after carried schedule,
    weatherHistory = before ++ weatherDay :: after
    /\ processDays zone (initialDepletionMillimeters zone, []) before
       = Some (carried, schedule)
    /\ D = advanceDepletion zone carried weatherDay.

(** [emitted zone weatherHistory entry]: the entry is the one the loop pushes
    on a day of the history whose depletion triggers irrigation. *)
Definition emitted (zone : Zone) (weatherHistory : list DailyWeather)
    (entry : IrrigationScheduleEntry) : Prop :=
  exists weatherDay D,
    triggerDepletion zone weatherHistory weatherDay D
    /\ irrigationNeeded zone D = true
    /\ scheduleEntry zone weatherDay D = Some entry.

(** A depletion within the soil's bounds. *)
Definition withinBounds (zone : Zone) (D : number) : Prop :=
  (0 <=? D) = true /\ (D <=? totalAvailableWaterMillimeters zone) = true.

(** A day whose crop evapotranspiration and effective rainfall are finite
    numbers: nothing in it is [NaN] and nothing overflows. *)
Definition finiteBalance (zone : Zone) (weatherDay : DailyWeather) : bool :=
  is_finite (cropEvapotranspiration zone weatherDay)
  && is_finite (effectiveRainfallMillimeters weatherDay).

(** The unrounded duration of each cycle of a plan: the whole runtime when
    one cycle is enough, an equal share of it otherwise. *)
Definition exactCycleMinutes (T M : number) : number :=
  if (M <=? 0) || (T <=? M) then T else T / Math_ceil (T / M).

(** Rounding to one decimal in the specification's words: half away from
    zero, applied to [value * 10]. *)
Definition roundHalfAwayFromZero (a : number) : number :=
  match Prim2SF a with
  | S754_finite s m e =>
      if (0 <=? e)%Z then a
      else
        let magnitude := ((2 * Z.pos m + 2 ^ (- e)) / (2 * 2 ^ (- e)))%Z in
        ofInteger s (if s then (- magnitude)%Z else magnitude)
  | _ => a
  end.

Definition roundTo1DecimalHalfAway (value : number) : number :=
  roundHalfAwayFromZero (value * 10) / 10.

End Vocabulary.

End Binary64.

(** * Properties *)

(** ** Facts about numbers *)

Section NumberFacts.

Import Number.
Local Open Scope num_scope.

Lemma fin_eq (a b : Q) : a == b -> fin a = fin b.
Proof. intros E; unfold fin; f_equal; apply Qred_complete, E. Qed.

Lemma leb_Fin (a b : Q) : (Fin a <=? Fin b) = true <-> (a <= b)%Q.
Proof. apply Qle_bool_iff. Qed.

Lemma leb_Fin_false (a b : Q) : (Fin a <=? Fin b) = false <-> (b < a)%Q.
Proof.
  simpl; split; intros E.
  - apply Qnot_le_lt; intros L; apply Qle_bool_iff in L; congruence.
  - apply not_true_is_false; intros L; apply Qle_bool_iff in L.
    exact (Qlt_not_le _ _ E L).
Qed.



End NumberFacts.

(** [qbool] turns every boolean comparison of rationals in sight into the
    order fact it decides, splitting on its value. *)
Ltac qbool :=
  repeat match goal with
  | H : context [Qle_bool ?a ?b] |- _ =>
      let E := fresh "E" in
      destruct (Qle_bool a b) eqn:E;
      [apply Qle_bool_iff in E | apply (leb_Fin_false a b) in E]
  | |- context [Qle_bool ?a ?b] =>
      let E := fresh "E" in
      destruct (Qle_bool a b) eqn:E;
      [apply Qle_bool_iff in E | apply (leb_Fin_false a b) in E]
  | H : context [Qeq_bool ?a ?b] |- _ =>
      let E := fresh "E" in
      destruct (Qeq_bool a b) eqn:E;
      [apply Qeq_bool_eq in E | apply Qeq_bool_neq in E]
  | |- context [Qeq_bool ?a ?b] =>
      let E := fresh "E" in
      destruct (Qeq_bool a b) eqn:E;
      [apply Qeq_bool_eq in E | apply Qeq_bool_neq in E]
  end.

(** [unred] removes the reductions to lowest terms, which do not change the
    value of a rational. *)
Ltac unred := repeat (setoid_rewrite Qred_correct).

Section EffectiveRainfall.

Context `{Calendar}.
Import Number.
Local Open Scope num_scope.


End EffectiveRainfall.

(** ** The cycle planner *)

Section CyclePlannerFacts.

Import Number.
Local Open Scope num_scope.

Lemma cycleLoop_step (fuel : nat) (i N d : number) (S : Dayjs) (K t : number)
    (acc : list IrrigationCycle) :
  cycleLoop (Datatypes.S fuel) i N d S K t acc
  = if i <? N
    then cycleLoop fuel (i + Fin 1) N d S K (t + d + K)
           (acc ++ [{| startTime := DayjsOps.subtract S (t + d);
                       durationMin := roundTo1Decimal d |}])
    else Some acc.
Proof. reflexivity. Qed.

Lemma plannedCycle_start (d S K : Q) (i : nat) :
  startTime (plannedCycle (Fin d) (Fin S) (Fin K) i)
  = fin (S - inject_Z (Z.of_nat (i - 1)) * (d + K) - d).
Proof.
  unfold plannedCycle, DayjsOps.subtract, ofNat; cbn [startTime add sub mul].
  apply fin_eq. unred. reflexivity.
Qed.

Lemma cycleLoop_durations (d : number) (S : Dayjs) (K N : number) :
  forall (fuel : nat) (i t : number) (acc l : list IrrigationCycle),
    cycleLoop fuel i N d S K t acc = Some l ->
    Forall (fun c => durationMin c = roundTo1Decimal d) acc ->
    Forall (fun c => durationMin c = roundTo1Decimal d) l.
Proof.
  induction fuel as [| fuel IH]; intros i t acc l E Hacc; [discriminate |].
  rewrite cycleLoop_step in E.
  destruct (i <? N).
  - eapply IH; [exact E |]. apply Forall_app; split; [exact Hacc |].
    constructor; [reflexivity | constructor].
  - now inversion E; subst.
Qed.

(** Every cycle of a plan reports the exact cycle duration rounded to one
    decimal. *)
Lemma buildCyclePlan_durations (T M : number) (S : Dayjs) (K : number)
    (l : list IrrigationCycle) :
  buildCyclePlan T M S K = Some l ->
  Forall (fun c => durationMin c = roundTo1Decimal (exactCycleMinutes T M)) l.
Proof.
  unfold buildCyclePlan, exactCycleMinutes.
  destruct (T <=? Fin 0); [intros E; inversion E; constructor |].
  destruct ((M <=? Fin 0) || (T <=? M)).
  - intros E; inversion E. constructor; [reflexivity | constructor].
  - destruct (cycleLoop _ _ _ _ _ _ _ _) as [r |] eqn:El; [| discriminate].
    intros E; inversion E; subst.
    apply Forall_rev. eapply cycleLoop_durations; [exact El | constructor].
Qed.

Lemma roundTo1Decimal_Fin (c : Q) :
  roundTo1Decimal (Fin c) = fin (inject_Z (Qfloor (c * 10 + 0.5)) / 10).
Proof.
  unfold roundTo1Decimal. cbn [mul Math_round fin].
  rewrite (Qfloor_comp (Qred (c * 10) + 0.5) (c * 10 + 0.5))
    by (now rewrite Qred_correct).
  reflexivity.
Qed.

(** By its exact duration a planned cycle ends at or before the anchor, and
    the latest one ends at the anchor. *)
Lemma plannedCycle_exact_end (d S K : Q) (i : nat) :
  (0 <= d + K)%Q ->
  DayjsOps.add (startTime (plannedCycle (Fin d) (Fin S) (Fin K) i)) (Fin d) <= Fin S
  /\ DayjsOps.add (startTime (plannedCycle (Fin d) (Fin S) (Fin K) 1)) (Fin d) = fin S.
Proof.
  intros HdK. rewrite !plannedCycle_start. unfold DayjsOps.add, fin. cbn [add].
  split.
  - apply leb_Fin. unfold fin. unred.
    assert (0 <= inject_Z (Z.of_nat (i - 1)))%Q
      by (change 0%Q with (inject_Z 0); rewrite <- Zle_Qle; lia).
    nra.
  - apply fin_eq. unred. change (inject_Z (Z.of_nat (1 - 1))) with 0%Q. ring.
Qed.

End CyclePlannerFacts.

(** ** The seed suite *)

Section SeedSuite.

Context `{Calendar}.
Import Number.
Local Open Scope num_scope.

(** C7.  With the seed-suite zone, an initial depletion of 25 mm and seven dry
    days of ET = 2.0 mm/day, the schedule has exactly one entry; it is dated
    the first day, its depletion before irrigation is 26.7 and its applied
    depth 33.4. *)
Theorem seed_single_event :
  exists entry,
    planZoneSchedule seedZone (createDryPeriod 7 (Fin 2.0)) = Some [entry]
    /\ entryDate entry = date (dryDay 0 (Fin 2.0))
    /\ depletionBeforeMm entry = fin 26.7
    /\ appliedDepthMm entry = fin 33.4.
Proof.
  eexists. split; [vm_compute; reflexivity |]. repeat split.
Qed.

(** C2, at the input where the code departs from it.  In the seed scenario the
    two cycles last 111.25 minutes each and are reported as 111.3: the latest
    cycle starts 111.25 minutes before the 06:00 sunrise, so its start plus
    its reported duration is 0.05 minute after sunrise, and the test
    [cycleEnd.isBefore(sunrise) || cycleEnd.isSame(sunrise)] is false. *)
Theorem reported_cycle_end_after_sunrise :
  let weatherDay := dryDay 0 (Fin 2.0) in
  exists entry earlier latest,
    planZoneSchedule seedZone (createDryPeriod 7 (Fin 2.0)) = Some [entry]
    /\ entryDate entry = date weatherDay
    /\ cycles entry = [earlier; latest]
    /\ sunriseOf weatherDay = Fin 360
    /\ startTime latest = fin (360 - 111.25)
    /\ durationMin latest = fin 111.3
    /\ DayjsOps.add (startTime latest) (durationMin latest) = fin 360.05
    /\ (let cycleEnd := DayjsOps.add (startTime latest) (durationMin latest) in
        DayjsOps.isBefore cycleEnd (sunriseOf weatherDay)
        || DayjsOps.isSame cycleEnd (sunriseOf weatherDay)) = false.
Proof.
  do 3 eexists. split; [vm_compute; reflexivity |]. cbn [cycles].
  split; [reflexivity |]. split; [reflexivity |]. repeat split.
Qed.

End SeedSuite.

(** ** Closed instances *)

Section Instances.

Import Number.
Local Open Scope num_scope.
Local Existing Instance uniformCalendar.


End Instances.

(** * Further properties *)

(** [qsolve] decides a goal about rationals that is built from comparisons and
    reductions to lowest terms. *)
Ltac unred_all :=
  unred;
  repeat match goal with
  | H : context [Qred _] |- _ => setoid_rewrite Qred_correct in H
  end.

Ltac qsolve := unfold Number.fin; unred_all; qbool; unred_all; lra.

(** ** The helpers *)

Section HelperProperties.

Import Number.
Local Open Scope num_scope.

(** X1.  The soak time never grows with the infiltration rate: a soil that
    takes water faster gets a soak that is no longer.  It lies between 15 and
    60 minutes, and a rate that compares with nothing ([NaN]) gets the longest
    soak. *)
Theorem estimateSoakMinutes_antitone (a b : Q) :
  (a <= b)%Q ->
  estimateSoakMinutes (Fin b) <= estimateSoakMinutes (Fin a)
  /\ Fin 15 <= estimateSoakMinutes (Fin a) <= Fin 60
  /\ estimateSoakMinutes NaN = Fin 60.
Proof.
  intros Hab. unfold estimateSoakMinutes, le. cbn [leb].
  qbool; repeat split; first [reflexivity | exfalso; lra].
Qed.

(** X2.  With bounds in order, [clampValue] returns a value within them: the
    value itself when it lies within the bounds, the bound it passes
    otherwise. *)
Theorem clampValue_within_bounds (v lo hi : Q) :
  (lo <= hi)%Q ->
  Fin lo <= clampValue (Fin v) (Fin lo) (Fin hi) <= Fin hi
  /\ ((lo <= v)%Q -> (v <= hi)%Q -> clampValue (Fin v) (Fin lo) (Fin hi) = fin v)
  /\ ((v < lo)%Q -> clampValue (Fin v) (Fin lo) (Fin hi) = fin lo)
  /\ ((hi < v)%Q -> clampValue (Fin v) (Fin lo) (Fin hi) = fin hi).
Proof.
  intros Hb. unfold clampValue, Math_max, Math_min, le.
  repeat split; intros.
  all: try (apply leb_Fin; qsolve).
  all: (apply fin_eq; qsolve).
Qed.

(** X3.  Clamping twice is clamping once, in whatever order the bounds are;
    with the bounds out of order the lower bound wins. *)
Theorem clampValue_idempotent (v lo hi : Q) :
  clampValue (clampValue (Fin v) (Fin lo) (Fin hi)) (Fin lo) (Fin hi)
  = clampValue (Fin v) (Fin lo) (Fin hi)
  /\ ((hi < lo)%Q -> clampValue (Fin v) (Fin lo) (Fin hi) = fin lo).
Proof.
  unfold clampValue, Math_max, Math_min. split; intros.
  all: (apply fin_eq; qsolve).
Qed.

(** X5.  Rounding keeps the order of finite values. *)
Theorem roundTo1Decimal_monotone (a b : Q) :
  (a <= b)%Q -> roundTo1Decimal (Fin a) <= roundTo1Decimal (Fin b).
Proof.
  intros Hab. rewrite !roundTo1Decimal_Fin. apply leb_Fin. unfold fin. unred.
  assert (Hf : (Qfloor (a * 10 + 0.5) <= Qfloor (b * 10 + 0.5))%Z)
    by (apply Qfloor_resp_le; lra).
  rewrite Zle_Qle in Hf.
  apply Qle_shift_div_l; [lra |].
  assert (E : inject_Z (Qfloor (a * 10 + 0.5)) / 10 * 10
              == inject_Z (Qfloor (a * 10 + 0.5))) by field.
  rewrite E. exact Hf.
Qed.

End HelperProperties.

(** ** The cycle planner *)

Section CyclePlannerProperties.

Import Number.
Local Open Scope num_scope.

(** X6.  All cycles of a plan report the same duration, whatever the numbers
    the planner was given. *)
Theorem buildCyclePlan_equal_durations (T M : number) (S : Dayjs) (K : number)
    (plan : list IrrigationCycle) :
  buildCyclePlan T M S K = Some plan ->
  forall c1 c2, In c1 plan -> In c2 plan -> durationMin c1 = durationMin c2.
Proof.
  intros E c1 c2 H1 H2.
  pose proof (buildCyclePlan_durations T M S K plan E) as Hd.
  rewrite Forall_forall in Hd. now rewrite (Hd c1 H1), (Hd c2 H2).
Qed.

End CyclePlannerProperties.

(** ** The water balance driver *)

Section DriverProperties.

Context `{Calendar}.
Import Number.
Local Open Scope num_scope.

(** X16.  On a soil whose infiltration rate is not positive the runtime is
    never split: the maximum cycle is the runtime itself and an event has at
    most one cycle, whatever the numbers. *)
Theorem no_split_without_infiltration
    (zone : Zone) (weatherDay : DailyWeather) (D : number) :
  (infiltrationRateMmPerHr (soil zone) >? Fin 0) = false ->
  exists plan,
    cycleList zone weatherDay D = Some plan /\ (List.length plan <= 1)%nat.
Proof.
  intros Hinf. unfold cycleList, maximumCycleMinutes. cbv zeta. rewrite Hinf.
  generalize (soakTimeMinutes zone) (sunriseOf weatherDay).
  destruct (totalRunTimeMinutes zone D) as [t | | |]; intros K S.
  - unfold buildCyclePlan.
    destruct (Fin t <=? Fin 0) eqn:E0.
    + exists []. split; [reflexivity | cbn; lia].
    + rewrite (proj2 (leb_Fin t t) (Qle_refl t)), orb_true_r.
      eexists; split; [reflexivity | cbn; lia].
  - eexists; split; [reflexivity | cbn; lia].
  - eexists; split; [reflexivity | cbn; lia].
  - eexists; split; [reflexivity | cbn; lia].
Qed.

End DriverProperties.

(** ** The catalogues *)

Section CatalogueProperties.

Import Number.
Local Open Scope num_scope.

Lemma find_first {A : Type} (f : A -> bool) (l : list A) (x : A) :
  find f l = Some x ->
  f x = true
  /\ exists before after,
       l = before ++ x :: after /\ Forall (fun y => f y = false) before.
Proof.
  induction l as [| y l IH]; [discriminate |].
  cbn [find]. destruct (f y) eqn:Ey.
  - intros E. inversion E; subst y. split; [exact Ey |].
    exists [], l. split; [reflexivity | constructor].
  - intros E. destruct (IH E) as (Hx & before & after & -> & Hb).
    split; [exact Hx |].
    exists (y :: before), after. split; [reflexivity | now constructor].
Qed.

Lemma find_absent {A : Type} (f : A -> bool) (l : list A) :
  find f l = None -> Forall (fun y => f y = false) l.
Proof.
  intros E. apply Forall_forall. intros y Hy. exact (find_none f l E y Hy).
Qed.

Lemma names_differ {A : Type} (name : A -> string) (name' : string) (l : list A) :
  Forall (fun y => String.eqb (name y) name' = false) l -> ~ In name' (map name l).
Proof.
  intros Hl Hin. apply in_map_iff in Hin as (y & Ey & Hy).
  rewrite Forall_forall in Hl. specialize (Hl y Hy).
  apply String.eqb_neq in Hl. contradiction.
Qed.

(** X18.  [findGrassByName] finds every grass of the catalogue by its name -
    no name is used twice, so no entry is hidden behind another - and what it
    returns is an entry of the catalogue with the name asked for.  A name the
    catalogue does not hold makes it throw, with the name quoted in the
    message. *)
Theorem findGrassByName_lookup :
  (forall grass, In grass GrassCatalogue.grassData ->
     GrassCatalogue.findGrassByName (GrassCatalogue.name grass) = Ok grass)
  /\ (forall name' grass, GrassCatalogue.findGrassByName name' = Ok grass ->
        GrassCatalogue.name grass = name' /\ In grass GrassCatalogue.grassData)
  /\ (forall name', ~ In name' (map GrassCatalogue.name GrassCatalogue.grassData) ->
        GrassCatalogue.findGrassByName name'
        = Throw ("Grass type " ++ doubleQuote ++ name' ++ doubleQuote
                 ++ " not found")%string).
Proof.
  split; [| split].
  - intros grass Hin. cbn in Hin.
    repeat (destruct Hin as [<- | Hin]; [vm_compute; reflexivity |]).
    contradiction.
  - intros name' grass. unfold GrassCatalogue.findGrassByName.
    destruct (find _ GrassCatalogue.grassData) as [found |] eqn:E; [| discriminate].
    intros Eok. inversion Eok; subst found.
    split.
    + apply find_some in E as [_ E]. now apply String.eqb_eq in E.
    + now apply find_some in E as [E _].
  - intros name' Hnot. unfold GrassCatalogue.findGrassByName.
    destruct (find _ GrassCatalogue.grassData) as [found |] eqn:E; [| reflexivity].
    exfalso. apply Hnot. apply find_some in E as [Hin E].
    apply String.eqb_eq in E. subst name'. now apply in_map.
Qed.

(** X19.  Whatever grass [findGrassByName] returns, it has growth stages, and
    the crop coefficient of each stage lies in (0, 1]: the range the
    scheduling kernel asks of its caller. *)
Theorem findGrassByName_coefficients (name' : string) (grass : GrassCatalogue.Grass) :
  GrassCatalogue.findGrassByName name' = Ok grass ->
  GrassCatalogue.growthStages grass <> []
  /\ Forall
       (fun growthStage =>
          Fin 0 < GrassCatalogue.cropCoefficient growthStage
          /\ GrassCatalogue.cropCoefficient growthStage <= Fin 1)
       (GrassCatalogue.growthStages grass).
Proof.
  unfold GrassCatalogue.findGrassByName.
  destruct (find _ GrassCatalogue.grassData) as [found |] eqn:E; [| discriminate].
  intros Eok. inversion Eok; subst found.
  apply find_some in E as [Hin _]. cbn in Hin.
  repeat (destruct Hin as [<- | Hin];
          [split; [discriminate | repeat constructor] |]).
  contradiction.
Qed.

(** X20.  [findSoilByName] returns the first soil of the data that carries the
    name asked for; it throws, with the name quoted in the message, exactly
    when no soil carries it. *)
Theorem findSoilByName_first_match (soilData : list SoilCatalogue.Soil) (name' : string) :
  match SoilCatalogue.findSoilByName soilData name' with
  | Ok soil =>
      SoilCatalogue.name soil = name'
      /\ exists before after,
           soilData = before ++ soil :: after
           /\ ~ In name' (map SoilCatalogue.name before)
  | Throw message =>
      ~ In name' (map SoilCatalogue.name soilData)
      /\ message = ("Soil type " ++ doubleQuote ++ name' ++ doubleQuote
                    ++ " not found.")%string
  end.
Proof.
  unfold SoilCatalogue.findSoilByName.
  destruct (find _ soilData) as [soil |] eqn:E.
  - apply find_first in E as (Hname & before & after & -> & Hb).
    apply String.eqb_eq in Hname. split; [exact Hname |].
    exists before, after. split; [reflexivity |].
    now apply names_differ.
  - split; [| reflexivity]. apply names_differ. now apply find_absent.
Qed.

End CatalogueProperties.

(** ** Closed instances of the further properties *)

Section FurtherInstances.

Import Number.
Local Open Scope num_scope.
Local Existing Instance uniformCalendar.

(** Clay against loam: 4 mm/hr soaks for 60 minutes, 25 mm/hr for 15. *)
Lemma estimateSoakMinutes_antitone_witness :
  (4 <= 25)%Q
  /\ estimateSoakMinutes (Fin 25) <= estimateSoakMinutes (Fin 4)
  /\ Fin 15 <= estimateSoakMinutes (Fin 4) <= Fin 60
  /\ estimateSoakMinutes NaN = Fin 60.
Proof.
  assert (H : (4 <= 25)%Q) by (unfold Qle; simpl; lia).
  split; [exact H | exact (estimateSoakMinutes_antitone 4 25 H)].
Defined.

(** A depletion of 50 mm against a total available water of 45 mm. *)
Lemma clampValue_within_bounds_witness :
  (0 <= 45)%Q
  /\ Fin 0 <= clampValue (Fin 50) (Fin 0) (Fin 45) <= Fin 45
  /\ ((0 <= 50)%Q -> (50 <= 45)%Q -> clampValue (Fin 50) (Fin 0) (Fin 45) = fin 50)
  /\ ((50 < 0)%Q -> clampValue (Fin 50) (Fin 0) (Fin 45) = fin 0)
  /\ ((45 < 50)%Q -> clampValue (Fin 50) (Fin 0) (Fin 45) = fin 45).
Proof.
  assert (H : (0 <= 45)%Q) by (unfold Qle; simpl; lia).
  split; [exact H | exact (clampValue_within_bounds 50 0 45 H)].
Defined.

Lemma roundTo1Decimal_monotone_witness :
  (111.25 <= 111.3)%Q
  /\ roundTo1Decimal (Fin 111.25) <= roundTo1Decimal (Fin 111.3).
Proof.
  assert (H : (111.25 <= 111.3)%Q) by (unfold Qle; simpl; lia).
  split; [exact H | exact (roundTo1Decimal_monotone 111.25 111.3 H)].
Defined.

(** The two cycles of the seed scenario. *)
Lemma buildCyclePlan_equal_durations_witness :
  buildCyclePlan (Fin 222.5) (Fin (500 # 3)) (Fin 360) (Fin 15)
  = Some (map (plannedCycle (Fin 111.25) (Fin 360) (Fin 15)) [2%nat; 1%nat])
  /\ forall c1 c2,
       In c1 (map (plannedCycle (Fin 111.25) (Fin 360) (Fin 15)) [2%nat; 1%nat]) ->
       In c2 (map (plannedCycle (Fin 111.25) (Fin 360) (Fin 15)) [2%nat; 1%nat]) ->
       durationMin c1 = durationMin c2.
Proof.
  assert (E : buildCyclePlan (Fin 222.5) (Fin (500 # 3)) (Fin 360) (Fin 15)
              = Some (map (plannedCycle (Fin 111.25) (Fin 360) (Fin 15)) [2%nat; 1%nat]))
    by (vm_compute; reflexivity).
  split; [exact E |].
  exact (buildCyclePlan_equal_durations _ _ _ _ _ E).
Defined.

Lemma no_split_without_infiltration_witness :
  (infiltrationRateMmPerHr (soil sealedZone) >? Fin 0) = false
  /\ exists plan,
       cycleList sealedZone (dryDay 0 (Fin 2.0)) (Fin 25) = Some plan
       /\ (List.length plan <= 1)%nat.
Proof.
  assert (Hinf : (infiltrationRateMmPerHr (soil sealedZone) >? Fin 0) = false)
    by reflexivity.
  split; [exact Hinf |].
  exact (no_split_without_infiltration sealedZone (dryDay 0 (Fin 2.0)) (Fin 25) Hinf).
Defined.

Lemma findGrassByName_coefficients_witness :
  exists grass,
    GrassCatalogue.findGrassByName "tall-fescue" = Ok grass
    /\ GrassCatalogue.growthStages grass <> []
    /\ Forall
         (fun growthStage =>
            Fin 0 < GrassCatalogue.cropCoefficient growthStage
            /\ GrassCatalogue.cropCoefficient growthStage <= Fin 1)
         (GrassCatalogue.growthStages grass).
Proof.
  eexists. split.
  - vm_compute. reflexivity.
  - apply (findGrassByName_coefficients "tall-fescue"). vm_compute. reflexivity.
Defined.

End FurtherInstances.

(** * Facts about binary64 numbers *)

Section SpecFloatFacts.

Import Floats.
Import Binary64.

Lemma shr_1_nonneg (mrs : shr_record) :
  (0 <= shr_m mrs)%Z -> (0 <= shr_m (shr_1 mrs))%Z.
Proof.
  destruct mrs as [m r s]. cbn [shr_m].
  destruct m as [| p | p]; [| destruct p | lia]; cbn; lia.
Qed.

Lemma iter_shr_1_nonneg (p : positive) :
  forall mrs, (0 <= shr_m mrs)%Z -> (0 <= shr_m (iter_pos shr_1 p mrs))%Z.
Proof.
  induction p as [p IH | p IH |]; intros mrs Hm; cbn [iter_pos].
  - apply IH, IH, shr_1_nonneg, Hm.
  - apply IH, IH, Hm.
  - apply shr_1_nonneg, Hm.
Qed.

Lemma shr_fexp_nonneg (prec emax m e : Z) (l : location) :
  (0 <= m)%Z -> (0 <= shr_m (fst (shr_fexp prec emax m e l)))%Z.
Proof.
  intros Hm. unfold shr_fexp, shr.
  assert (H0 : (0 <= shr_m (shr_record_of_loc m l))%Z)
    by (destruct l as [| []]; exact Hm).
  destruct (fexp prec emax (Zdigits2 m + e) - e)%Z; cbn [fst]; try exact H0.
  now apply iter_shr_1_nonneg.
Qed.

Lemma round_nearest_even_nonneg (m : Z) (l : location) :
  (0 <= m)%Z -> (0 <= round_nearest_even m l)%Z.
Proof.
  intros Hm. destruct l as [| []]; cbn; try destruct (Z.even m); lia.
Qed.

(** What rounding leaves of a mantissa that is not negative is a zero, a
    finite number or an infinity of the sign it was given: never [NaN]. *)
Lemma binary_round_aux_sign (prec emax : Z) (sx : bool) (mx ex : Z) (lx : location) :
  (0 <= mx)%Z -> hasSign sx (binary_round_aux prec emax sx mx ex lx) = true.
Proof.
  intros Hm. unfold binary_round_aux.
  pose proof (shr_fexp_nonneg prec emax mx ex lx Hm) as H1.
  destruct (shr_fexp prec emax mx ex lx) as [mrs' e']. cbn [fst] in H1.
  pose proof (shr_fexp_nonneg prec emax
                (round_nearest_even (shr_m mrs') (loc_of_shr_record mrs')) e' loc_Exact
                (round_nearest_even_nonneg _ _ H1)) as H2.
  destruct (shr_fexp prec emax _ e' loc_Exact) as [mrs'' e'']. cbn [fst] in H2.
  destruct (shr_m mrs'') as [| m | m]; [| | lia].
  - cbn. apply Bool.eqb_reflx.
  - destruct (e'' <=? emax - prec)%Z; cbn; apply Bool.eqb_reflx.
Qed.

Lemma hasSign_false (x : spec_float) : hasSign false x = true -> notNegative x = true.
Proof. destruct x as [[] | [] | | [] m e]; cbn; congruence. Qed.

Lemma hasSign_isNumber (s : bool) (x : spec_float) : hasSign s x = true -> isNumber x = true.
Proof. destruct x; cbn; congruence. Qed.

Lemma binary_normalize_isNumber (m e : Z) (szero : bool) :
  isNumber (binary_normalize prec emax m e szero) = true.
Proof.
  unfold binary_normalize, binary_round.
  destruct m as [| p | p]; [reflexivity | |];
    destruct (shl_align _ _ _) as [mz ez];
    eapply hasSign_isNumber, binary_round_aux_sign; lia.
Qed.

Lemma SFmul_notNegative (x y : spec_float) :
  notNegative x = true -> isPositive y = true -> isFiniteNumber y = true ->
  notNegative (SF64mul x y) = true.
Proof.
  destruct x as [[] | [] | | [] mx ex], y as [[] | [] | | [] my ey]; cbn; try congruence.
  intros _ _ _. apply hasSign_false. change (xorb false false) with false.
  apply binary_round_aux_sign. lia.
Qed.

Lemma SFmul_notBelowZero (x y : spec_float) :
  notBelowZero x = true -> isPositive y = true -> isFiniteNumber y = true ->
  notBelowZero (SF64mul x y) = true.
Proof.
  destruct x as [[] | [] | | [] mx ex], y as [[] | [] | | [] my ey]; cbn; try congruence.
  intros _ _ _.
  pose proof (binary_round_aux_sign prec emax false (Z.pos (mx * my)) (ex + ey) loc_Exact
                ltac:(lia)) as Hs.
  change (xorb false false) with false.
  destruct (binary_round_aux prec emax false _ _ _) as [| | | [] m e]; cbn in *; congruence.
Qed.

Lemma SFdiv_core_nonneg (mx my : positive) (ex ey : Z) :
  (0 <= fst (fst (SFdiv_core_binary prec emax (Z.pos mx) ex (Z.pos my) ey)))%Z.
Proof.
  unfold SFdiv_core_binary.
  set (s := (ex - ey - _)%Z).
  set (m' := match s with Z.pos _ => Z.shiftl (Z.pos mx) s | 0%Z => Z.pos mx | Z.neg _ => 0%Z end).
  assert (Hm' : (0 <= m')%Z).
  { unfold m'. destruct s; try lia. apply Z.shiftl_nonneg. lia. }
  pose proof (Z_div_mod m' (Z.pos my) ltac:(lia)) as Hdiv.
  destruct (Z.div_eucl m' (Z.pos my)) as [q r]. cbn [fst].
  destruct Hdiv as [Hq Hr]. nia.
Qed.

Lemma SFdiv_finite_sign (sx sy : bool) (mx my : positive) (ex ey : Z) :
  hasSign (xorb sx sy)
    (SF64div (S754_finite sx mx ex) (S754_finite sy my ey)) = true.
Proof.
  unfold SF64div, SFdiv.
  pose proof (SFdiv_core_nonneg mx my ex ey) as Hq.
  destruct (SFdiv_core_binary prec emax (Z.pos mx) ex (Z.pos my) ey) as [[mz ez] lz].
  cbn [fst] in Hq. now apply binary_round_aux_sign.
Qed.

(** A quotient of numbers that are not negative is [NaN], an infinity, or
    not negative. *)
Lemma SFdiv_notBelowZero (x y : spec_float) :
  notNegative x = true -> notNegative y = true ->
  notBelowZero (SF64div x y) = true.
Proof.
  destruct x as [sx | [] | | [] mx ex], y as [sy | [] | | [] my ey];
    cbn [notNegative]; try congruence; intros _ _; try reflexivity.
  pose proof (SFdiv_finite_sign false false mx my ex ey) as Hs.
  destruct (SF64div _ _) as [| | | [] m e]; cbn in *; congruence.
Qed.

(** A quotient by a positive finite number is a number when the dividend
    is. *)
Lemma SFdiv_isNumber (x y : spec_float) :
  isNumber x = true -> isPositive y = true -> isFiniteNumber y = true ->
  isNumber (SF64div x y) = true.
Proof.
  destruct x as [sx | sx | | sx mx ex], y as [sy | [] | | [] my ey];
    cbn [isNumber isPositive isFiniteNumber]; try congruence; intros _ _ _;
    try reflexivity.
  eapply hasSign_isNumber, SFdiv_finite_sign.
Qed.

Lemma SFadd_isNumber (x y : spec_float) :
  isNumber x = true -> isFiniteNumber y = true ->
  isNumber (SF64add x y) = true.
Proof.
  destruct x as [[] | sx | | sx mx ex], y as [[] | sy | | sy my ey];
    cbn [isNumber isFiniteNumber]; try congruence; intros _ _; try reflexivity.
  unfold SF64add, SFadd. apply binary_normalize_isNumber.
Qed.

Lemma SFsub_isNumber (x y : spec_float) :
  isNumber x = true -> isFiniteNumber y = true ->
  isNumber (SF64sub x y) = true.
Proof.
  destruct x as [[] | sx | | sx mx ex], y as [[] | sy | | sy my ey];
    cbn [isNumber isFiniteNumber]; try congruence; intros _ _; try reflexivity.
  unfold SF64sub, SFsub. apply binary_normalize_isNumber.
Qed.

Lemma SFcompare_refl (x : spec_float) :
  isNumber x = true -> SFcompare x x = Some Eq.
Proof.
  destruct x as [s | [] | | [] m e]; cbn; try congruence; intros _;
    rewrite Z.compare_refl, Pos.compare_cont_refl; reflexivity.
Qed.

Lemma SFcompare_antisym (x y : spec_float) :
  SFcompare y x = option_map CompOpp (SFcompare x y).
Proof.
  destruct x as [sx | [] | | [] mx ex], y as [sy | [] | | [] my ey];
    cbn; try reflexivity;
    pose proof (Pos.compare_cont_antisym mx my Eq) as Hm; cbn in Hm;
    rewrite (Z.compare_antisym ex ey);
    destruct (ex ?= ey)%Z; cbn; try reflexivity;
    rewrite <- Hm; try rewrite CompOpp_involutive; reflexivity.
Qed.

Lemma SFcompare_None (x y : spec_float) :
  isNumber x = true -> isNumber y = true -> SFcompare x y <> None.
Proof.
  destruct x as [sx | [] | | [] mx ex], y as [sy | [] | | [] my ey];
    cbn; congruence.
Qed.

End SpecFloatFacts.

Section NumberFacts64.

Import Floats.
Import Binary64.
Local Open Scope float_scope.

Lemma is_nan_spec (x : number) : is_nan x = negb (isNumber (Prim2SF x)).
Proof.
  unfold is_nan. rewrite eqb_spec. unfold SFeqb.
  destruct (isNumber (Prim2SF x)) eqn:E.
  - now rewrite SFcompare_refl.
  - destruct (Prim2SF x); cbn in *; congruence.
Qed.

Lemma isNumber_spec (x : number) : isNumber (Prim2SF x) = negb (is_nan x).
Proof. rewrite is_nan_spec. now destruct (isNumber (Prim2SF x)). Qed.

Lemma is_finite_spec (x : number) : is_finite x = isFiniteNumber (Prim2SF x).
Proof.
  unfold is_finite, is_infinity. rewrite is_nan_spec, eqb_spec, abs_spec.
  change (Prim2SF infinity) with (S754_infinity false).
  destruct (Prim2SF x) as [s | s | | s m e]; reflexivity.
Qed.

Lemma leb_0_l (x : number) : (0 <=? x) = notNegative (Prim2SF x).
Proof.
  rewrite leb_spec. change (Prim2SF 0) with (S754_zero false).
  destruct (Prim2SF x) as [s | [] | | [] m e]; reflexivity.
Qed.

Lemma ltb_0_l (x : number) : (0 <? x) = isPositive (Prim2SF x).
Proof.
  rewrite ltb_spec. change (Prim2SF 0) with (S754_zero false).
  destruct (Prim2SF x) as [s | [] | | [] m e]; reflexivity.
Qed.

Lemma leb_0_r_false (x : number) :
  (x <=? 0) = false -> notBelowZero (Prim2SF x) = true.
Proof.
  rewrite leb_spec. change (Prim2SF 0) with (S754_zero false).
  destruct (Prim2SF x) as [s | [] | | [] m e]; cbn; congruence.
Qed.

Lemma leb_isNumber (a b : number) :
  (a <=? b) = true -> is_nan a = false /\ is_nan b = false.
Proof.
  rewrite leb_spec, !is_nan_spec. unfold SFleb.
  destruct (Prim2SF a), (Prim2SF b); cbn; intros E; try discriminate; auto.
Qed.

Lemma ltb_isNumber (a b : number) :
  (a <? b) = true -> is_nan a = false /\ is_nan b = false.
Proof.
  rewrite ltb_spec, !is_nan_spec. unfold SFltb.
  destruct (Prim2SF a), (Prim2SF b); cbn; intros E; try discriminate; auto.
Qed.

Lemma leb_refl (x : number) : is_nan x = false -> (x <=? x) = true.
Proof.
  rewrite is_nan_spec, leb_spec. intros E. apply negb_false_iff in E.
  unfold SFleb. now rewrite SFcompare_refl.
Qed.

Lemma ltb_leb (a b : number) : (a <? b) = true -> (a <=? b) = true.
Proof.
  rewrite ltb_spec, leb_spec. unfold SFltb, SFleb.
  destruct (SFcompare (Prim2SF a) (Prim2SF b)) as [[] |]; congruence.
Qed.

Lemma leb_total (a b : number) :
  is_nan a = false -> is_nan b = false -> (a <? b) = false -> (b <=? a) = true.
Proof.
  rewrite !is_nan_spec, ltb_spec, leb_spec. intros Ha Hb.
  apply negb_false_iff in Ha, Hb.
  pose proof (SFcompare_None _ _ Ha Hb) as Hn.
  unfold SFltb, SFleb. rewrite (SFcompare_antisym (Prim2SF a) (Prim2SF b)).
  destruct (SFcompare (Prim2SF a) (Prim2SF b)) as [[] |]; cbn; congruence.
Qed.

Lemma leb_ltb_false (a b : number) : (a <=? b) = true -> (b <? a) = false.
Proof.
  rewrite ltb_spec, leb_spec. unfold SFltb, SFleb.
  rewrite (SFcompare_antisym (Prim2SF a) (Prim2SF b)).
  destruct (SFcompare (Prim2SF a) (Prim2SF b)) as [[] |]; cbn; congruence.
Qed.

Lemma leb_false_ltb (a b : number) :
  is_nan a = false -> is_nan b = false -> (a <=? b) = false -> (b <? a) = true.
Proof.
  rewrite !is_nan_spec, ltb_spec, leb_spec. intros Ha Hb.
  apply negb_false_iff in Ha, Hb.
  pose proof (SFcompare_None _ _ Ha Hb) as Hn.
  unfold SFltb, SFleb. rewrite (SFcompare_antisym (Prim2SF a) (Prim2SF b)).
  destruct (SFcompare (Prim2SF a) (Prim2SF b)) as [[] |]; cbn; congruence.
Qed.

(** [Math.max] and [Math.min] return [NaN] or one of their arguments, the
    greater and the smaller. *)
Lemma Math_max_nan (a b : number) :
  is_nan (Math_max a b) = is_nan a || is_nan b.
Proof.
  unfold Math_max.
  destruct (is_nan a) eqn:Ea; [reflexivity |].
  destruct (is_nan b) eqn:Eb; [reflexivity |]. cbn [orb].
  repeat match goal with |- context [if ?c then _ else _] => destruct c end;
    assumption.
Qed.

Lemma Math_min_nan (a b : number) :
  is_nan (Math_min a b) = is_nan a || is_nan b.
Proof.
  unfold Math_min.
  destruct (is_nan a) eqn:Ea; [reflexivity |].
  destruct (is_nan b) eqn:Eb; [reflexivity |]. cbn [orb].
  repeat match goal with |- context [if ?c then _ else _] => destruct c end;
    assumption.
Qed.

Lemma Math_max_cases (a b : number) :
  is_nan a = false -> is_nan b = false ->
  (Math_max a b = a /\ (b <=? a) = true) \/ (Math_max a b = b /\ (a <=? b) = true).
Proof.
  intros Ha Hb. unfold Math_max. rewrite Ha, Hb. cbn [orb].
  destruct (a <? b) eqn:Eab; [right; split; [reflexivity | now apply ltb_leb] |].
  destruct (b <? a) eqn:Eba; [left; split; [reflexivity | now apply ltb_leb] |].
  destruct (get_sign a).
  - right. split; [reflexivity | now apply leb_total].
  - left. split; [reflexivity | now apply leb_total].
Qed.

Lemma Math_min_cases (a b : number) :
  is_nan a = false -> is_nan b = false ->
  (Math_min a b = a /\ (a <=? b) = true) \/ (Math_min a b = b /\ (b <=? a) = true).
Proof.
  intros Ha Hb. unfold Math_min. rewrite Ha, Hb. cbn [orb].
  destruct (a <? b) eqn:Eab; [left; split; [reflexivity | now apply ltb_leb] |].
  destruct (b <? a) eqn:Eba; [right; split; [reflexivity | now apply ltb_leb] |].
  destruct (get_sign a).
  - left. split; [reflexivity | now apply leb_total].
  - right. split; [reflexivity | now apply leb_total].
Qed.

Lemma clampValue_nan (value min max : number) :
  is_nan (clampValue value min max) = is_nan min || (is_nan max || is_nan value).
Proof. unfold clampValue. now rewrite Math_max_nan, Math_min_nan. Qed.

(** With bounds in order, a clamped number lies within them. *)
Lemma clampValue_bounds (value min max : number) :
  is_nan value = false -> (min <=? max) = true ->
  (min <=? clampValue value min max) = true
  /\ (clampValue value min max <=? max) = true.
Proof.
  intros Hv Hb. destruct (leb_isNumber _ _ Hb) as [Hlo Hhi].
  unfold clampValue.
  assert (Hm : is_nan (Math_min max value) = false)
    by (rewrite Math_min_nan, Hhi, Hv; reflexivity).
  destruct (Math_max_cases min (Math_min max value) Hlo Hm) as [[-> H1] | [-> H1]].
  - split; [now apply leb_refl | exact Hb].
  - split; [exact H1 |].
    destruct (Math_min_cases max value Hhi Hv) as [[-> H2] | [-> H2]];
      [now apply leb_refl | exact H2].
Qed.

End NumberFacts64.

Section RoundingFacts64.

Import Floats.
Import Binary64.
Local Open Scope float_scope.

Lemma binary_normalize_notNegative (m e : Z) (szero : bool) :
  (0 <= m)%Z -> notNegative (binary_normalize prec emax m e szero) = true.
Proof.
  intros Hm. unfold binary_normalize, binary_round.
  destruct m as [| p | p]; [reflexivity | | lia].
  destruct (shl_align _ _ _) as [mz ez].
  apply hasSign_false, binary_round_aux_sign. lia.
Qed.

Lemma of_uint63_notNegative (n : PrimInt63.int) :
  notNegative (Prim2SF (of_uint63 n)) = true.
Proof.
  rewrite of_uint63_spec. apply binary_normalize_notNegative.
  apply Uint63.to_Z_bounded.
Qed.

(** The float of a whole number that is not negative is a number that is not
    negative. *)
Lemma ofInteger_notNegative (z : Z) :
  notNegative (Prim2SF (ofInteger false z)) = true.
Proof. apply of_uint63_notNegative. Qed.

Lemma notNegative_notBelowZero (x : spec_float) :
  notNegative x = true -> notBelowZero x = true.
Proof. destruct x as [| | | [] m e]; cbn; congruence. Qed.

Lemma notNegative_isNumber (x : spec_float) :
  notNegative x = true -> isNumber x = true.
Proof. destruct x; cbn; congruence. Qed.

Lemma Math_round_notNegative (x : number) :
  notNegative (Prim2SF x) = true -> notNegative (Prim2SF (Math_round x)) = true.
Proof.
  unfold Math_round. intros Hx.
  destruct (Prim2SF x) as [s | s | | [] m e] eqn:E; try (now rewrite E); try discriminate.
  destruct (0 <=? e)%Z; [now rewrite E | apply ofInteger_notNegative].
Qed.

(** On anything but a finite number below zero, [Math.round] rounds a half
    away from zero. *)
Lemma Math_round_half_away (x : number) :
  notBelowZero (Prim2SF x) = true -> Math_round x = roundHalfAwayFromZero x.
Proof.
  unfold Math_round, roundHalfAwayFromZero.
  destruct (Prim2SF x) as [s | s | | [] m e]; try reflexivity; discriminate.
Qed.

Lemma SFdiv_notNegative (x y : spec_float) :
  notNegative x = true -> isPositive y = true -> isFiniteNumber y = true ->
  notNegative (SF64div x y) = true.
Proof.
  destruct x as [[] | [] | | [] mx ex], y as [sy | [] | | [] my ey];
    cbn [notNegative isPositive isFiniteNumber]; try congruence; intros _ _ _;
    try reflexivity.
  apply hasSign_false. apply (SFdiv_finite_sign false false).
Qed.

Lemma SFdiv_positive_notBelowZero (x y : spec_float) :
  notBelowZero x = true -> isPositive y = true -> isFiniteNumber y = true ->
  notBelowZero (SF64div x y) = true.
Proof.
  destruct x as [sx | sx | | [] mx ex], y as [sy | [] | | [] my ey];
    cbn [notBelowZero isPositive isFiniteNumber]; try congruence; intros _ _ _;
    try reflexivity.
  apply notNegative_notBelowZero, hasSign_false. apply (SFdiv_finite_sign false false).
Qed.

Lemma ten_positive : isPositive (Prim2SF 10) = true /\ isFiniteNumber (Prim2SF 10) = true.
Proof. split; vm_compute; reflexivity. Qed.


(** Rounding to one decimal keeps a number that is not negative what it
    is. *)
Lemma roundTo1Decimal_notNegative (v : number) :
  (0 <=? v) = true -> (0 <=? roundTo1Decimal v) = true.
Proof.
  rewrite !leb_0_l. intros Hv. unfold roundTo1Decimal.
  rewrite div_spec. apply SFdiv_notNegative; try apply ten_positive.
  apply Math_round_notNegative. rewrite mul_spec.
  apply SFmul_notNegative; [exact Hv | apply ten_positive ..].
Qed.

Lemma roundTo1Decimal_half_away (v : number) :
  notBelowZero (Prim2SF v) = true -> roundTo1Decimal v = roundTo1DecimalHalfAway v.
Proof.
  intros Hv. unfold roundTo1Decimal, roundTo1DecimalHalfAway.
  rewrite Math_round_half_away; [reflexivity |].
  rewrite mul_spec. apply SFmul_notBelowZero; [exact Hv | apply ten_positive ..].
Qed.

Lemma Math_min_notBelowZero (a b : number) :
  notBelowZero (Prim2SF a) = true -> notBelowZero (Prim2SF b) = true ->
  notBelowZero (Prim2SF (Math_min a b)) = true.
Proof.
  intros Ha Hb. unfold Math_min.
  repeat match goal with |- context [if ?c then _ else _] => destruct c end;
    first [assumption | reflexivity].
Qed.

Lemma div_isNumber (a b : number) :
  is_nan a = false -> (0 <? b) = true -> is_finite b = true ->
  is_nan (a / b) = false.
Proof.
  rewrite !is_nan_spec, ltb_0_l, is_finite_spec, div_spec. intros Ha Hb Hf.
  apply negb_false_iff in Ha. apply negb_false_iff. now apply SFdiv_isNumber.
Qed.



Lemma Math_min_le_r (a b : number) :
  is_nan a = false -> is_nan b = false -> (Math_min a b <=? b) = true.
Proof.
  intros Ha Hb.
  destruct (Math_min_cases a b Ha Hb) as [[-> Hab] | [-> _]];
    [exact Hab | now apply leb_refl].
Qed.


End RoundingFacts64.

(** * The cycle planner in binary64 *)

Section CyclePlanner64.

Import Floats.
Import Binary64.
Local Open Scope float_scope.





Lemma cycleLoop_unfold (fuel : nat) (i : Z) (N d : number) (S : Dayjs) (K t : number)
    (acc : list IrrigationCycle) :
  cycleLoop (Datatypes.S fuel) i N d S K t acc
  = if counterBelow i N
    then cycleLoop fuel (increment i) N d S K ((t + d) + K)
           (acc ++ [{| startTime := DayjsOps.subtract S (t + d);
                       durationMin := roundTo1Decimal d |}])
    else Some acc.
Proof. reflexivity. Qed.



End CyclePlanner64.

Section CyclePlannerSpec64.

Import Floats.
Import Binary64.
Local Open Scope float_scope.


End CyclePlannerSpec64.

(** * The water balance driver in binary64 *)

Section DriverFacts64.

Import Floats.
Import Binary64.
Local Open Scope float_scope.
Context `{Calendar}.

Lemma processDays_app (zone : Zone) (l1 l2 : list DailyWeather) :
  forall state,
    processDays zone state (l1 ++ l2)
    = match processDays zone state l1 with
      | Some state' => processDays zone state' l2
      | None => None
      end.
Proof.
  induction l1 as [| weatherDay l1 IH]; intros state; [reflexivity |].
  cbn [app processDays]. destruct (processDay zone state weatherDay); [apply IH | reflexivity].
Qed.

Lemma scheduleEntry_fields (zone : Zone) (weatherDay : DailyWeather) (D : number)
    (entry : IrrigationScheduleEntry) :
  scheduleEntry zone weatherDay D = Some entry ->
  entryDate entry = date weatherDay
  /\ zoneId entry = id zone
  /\ cycleList zone weatherDay D = Some (cycles entry)
  /\ appliedDepthMm entry = roundTo1Decimal (grossIrrigationDepthMillimeters zone D)
  /\ depletionBeforeMm entry = roundTo1Decimal D
  /\ depletionAfterMm entry = roundTo1Decimal depletionAfterIrrigation.
Proof.
  unfold scheduleEntry. destruct (cycleList zone weatherDay D); [| discriminate].
  intros E. inversion E. repeat split.
Qed.

(** One day of the loop: the trigger test decides between the two ways on. *)
Lemma processDay_cases (zone : Zone) (D : number) (schedule : list IrrigationScheduleEntry)
    (weatherDay : DailyWeather) (state' : number * list IrrigationScheduleEntry) :
  processDay zone (D, schedule) weatherDay = Some state' ->
  (irrigationNeeded zone (advanceDepletion zone D weatherDay) = true
   /\ exists entry,
        scheduleEntry zone weatherDay (advanceDepletion zone D weatherDay) = Some entry
        /\ state' = (clampValue (depletionAfterEvent zone weatherDay) 0
                       (totalAvailableWaterMillimeters zone),
                     schedule ++ [entry]))
  \/ (irrigationNeeded zone (advanceDepletion zone D weatherDay) = false
      /\ state' = (clampValue (advanceDepletion zone D weatherDay) 0
                     (totalAvailableWaterMillimeters zone),
                   schedule)).
Proof.
  cbv beta iota zeta delta [processDay].
  destruct (irrigationNeeded zone (advanceDepletion zone D weatherDay)).
  - destruct (scheduleEntry zone weatherDay (advanceDepletion zone D weatherDay))
      as [entry |]; [| discriminate].
    intros E. inversion E. left. split; [reflexivity |]. now exists entry.
  - intros E. inversion E. now right.
Qed.

(** The loop only ever appends, and what it appends is dated by the days it
    goes through, in their order. *)
Lemma processDays_appends (zone : Zone) :
  forall (days : list DailyWeather) (state state' : number * list IrrigationScheduleEntry),
    processDays zone state days = Some state' ->
    exists entries triggered,
      snd state' = snd state ++ entries
      /\ Subsequence triggered days
      /\ map entryDate entries = map date triggered
      /\ Forall (fun entry => zoneId entry = id zone) entries.
Proof.
  induction days as [| weatherDay rest IH]; intros [D schedule] state' E.
  - cbn in E. inversion E; subst state'. exists [], [].
    rewrite app_nil_r. repeat split; constructor.
  - cbn [processDays] in E.
    destruct (processDay zone (D, schedule) weatherDay) as [state1 |] eqn:E1;
      [| discriminate].
    apply IH in E as (entries & triggered & E2 & Hsub & Hmap & Hall).
    destruct (processDay_cases _ _ _ _ _ E1) as [(_ & entry & Ee & ->) | (_ & ->)].
    + destruct (scheduleEntry_fields _ _ _ _ Ee) as (Hd & Hid & _).
      exists (entry :: entries), (weatherDay :: triggered).
      cbn [snd] in *. rewrite E2, <- app_assoc.
      split; [reflexivity |]. split; [now constructor |].
      split; [cbn [map]; now rewrite Hd, Hmap |].
      now constructor.
    + exists entries, triggered. cbn [snd] in *.
      split; [exact E2 |]. split; [now constructor |]. split; assumption.
Qed.


Lemma Subsequence_map {A B : Type} (f : A -> B) (l1 l2 : list A) :
  Subsequence l1 l2 -> Subsequence (map f l1) (map f l2).
Proof. induction 1; cbn [map]; constructor; assumption. Qed.

Lemma Subsequence_shorter {A : Type} (l1 l2 : list A) :
  Subsequence l1 l2 -> (List.length l1 <= List.length l2)%nat.
Proof. induction 1; cbn; lia. Qed.

Lemma Subsequence_empty {A : Type} (l : list A) : Subsequence [] l.
Proof. induction l; constructor; assumption. Qed.

(** Every entry the loop holds was pushed on a day whose depletion
    triggered. *)
Lemma processDays_emitted (zone : Zone) (weatherHistory : list DailyWeather) :
  forall (days before : list DailyWeather) (D : number)
      (schedule : list IrrigationScheduleEntry)
      (state' : number * list IrrigationScheduleEntry),
    weatherHistory = before ++ days ->
    processDays zone (initialDepletionMillimeters zone, []) before
    = Some (D, schedule) ->
    Forall (emitted zone weatherHistory) schedule ->
    processDays zone (D, schedule) days = Some state' ->
    Forall (emitted zone weatherHistory) (snd state').
Proof.
  induction days as [| weatherDay rest IH];
    intros before D schedule state' Hsplit Hbefore Hs E.
  - cbn in E. inversion E. exact Hs.
  - cbn [processDays] in E.
    destruct (processDay zone (D, schedule) weatherDay) as [[D1 s1] |] eqn:E1;
      [| discriminate].
    apply (IH (before ++ [weatherDay]) D1 s1 state'); [| | | exact E].
    + now rewrite <- app_assoc.
    + rewrite processDays_app, Hbefore. cbn [processDays]. now rewrite E1.
    + destruct (processDay_cases _ _ _ _ _ E1) as [(Hn & entry & Ee & Es) | (_ & Es)];
        inversion Es; subst; [| exact Hs].
      apply Forall_app. split; [exact Hs |]. constructor; [| constructor].
      exists weatherDay, (advanceDepletion zone D weatherDay).
      split; [| split; assumption].
      exists before, rest, D, schedule. auto.
Qed.

Lemma planZoneSchedule_emitted (zone : Zone) (weatherHistory : list DailyWeather)
    (schedule : list IrrigationScheduleEntry) :
  planZoneSchedule zone weatherHistory = Some schedule ->
  Forall (emitted zone weatherHistory) schedule.
Proof.
  unfold planZoneSchedule. intros E.
  assert (Hrun : schedule = []
                 \/ exists D, processDays zone (initialDepletionMillimeters zone, [])
                                weatherHistory = Some (D, schedule)).
  { destruct (isEnabled zone) as [[|] |];
      [right | left; congruence | right];
      (destruct (processDays zone _ weatherHistory) as [[D s] |]; [| discriminate]);
      inversion E; subst s; now exists D. }
  destruct Hrun as [-> | [D Hrun]]; [constructor |].
  exact (processDays_emitted zone weatherHistory weatherHistory [] _ [] (D, schedule)
           eq_refl eq_refl (Forall_nil _) Hrun).
Qed.

(** A depletion that triggers is a number, and so is the readily available
    water. *)
Lemma irrigationNeeded_isNumber (zone : Zone) (D : number) :
  irrigationNeeded zone D = true ->
  is_nan D = false /\ is_nan (readilyAvailableWaterMillimeters zone) = false.
Proof.
  unfold irrigationNeeded. intros E. destruct (leb_isNumber _ _ E). auto.
Qed.

Lemma mul_isNumber_r (a b : number) : is_nan (a * b) = false -> is_nan b = false.
Proof.
  rewrite !is_nan_spec, mul_spec. unfold SF64mul.
  destruct (Prim2SF a) as [| | |], (Prim2SF b) as [| | |]; cbn; congruence.
Qed.

Lemma roundTo1Decimal_zero : roundTo1Decimal 0 = 0.
Proof. vm_compute. reflexivity. Qed.

End DriverFacts64.

Section DriverBounds64.

Import Floats.
Import Binary64.
Local Open Scope float_scope.
Context `{Calendar}.

Lemma add_isNumber (a b : number) :
  is_nan a = false -> is_finite b = true -> is_nan (a + b) = false.
Proof.
  rewrite !is_nan_spec, is_finite_spec, add_spec. intros Ha Hb.
  apply negb_false_iff in Ha. apply negb_false_iff. now apply SFadd_isNumber.
Qed.

Lemma sub_isNumber (a b : number) :
  is_nan a = false -> is_finite b = true -> is_nan (a - b) = false.
Proof.
  rewrite !is_nan_spec, is_finite_spec, sub_spec. intros Ha Hb.
  apply negb_false_iff in Ha. apply negb_false_iff. now apply SFsub_isNumber.
Qed.

(** The depletion balance of a day with finite terms is a number. *)
Lemma balance_isNumber (zone : Zone) (weatherDay : DailyWeather) (D : number) :
  is_nan D = false -> finiteBalance zone weatherDay = true ->
  is_nan (D + cropEvapotranspiration zone weatherDay
          - effectiveRainfallMillimeters weatherDay) = false.
Proof.
  intros HD Hf. unfold finiteBalance in Hf. apply andb_prop in Hf as [Het Hrain].
  apply sub_isNumber; [| exact Hrain]. now apply add_isNumber.
Qed.

Lemma clamped_withinBounds (zone : Zone) (v : number) :
  (0 <=? totalAvailableWaterMillimeters zone) = true -> is_nan v = false ->
  withinBounds zone (clampValue v 0 (totalAvailableWaterMillimeters zone)).
Proof. intros Htaw Hv. now apply clampValue_bounds. Qed.

Lemma withinBounds_isNumber (zone : Zone) (D : number) :
  withinBounds zone D -> is_nan D = false.
Proof. intros [H0 _]. now destruct (leb_isNumber _ _ H0). Qed.

Lemma advance_withinBounds (zone : Zone) (weatherDay : DailyWeather) (D : number) :
  (0 <=? totalAvailableWaterMillimeters zone) = true ->
  is_nan D = false -> finiteBalance zone weatherDay = true ->
  withinBounds zone (advanceDepletion zone D weatherDay).
Proof.
  intros Htaw HD Hf. apply clamped_withinBounds; [exact Htaw |].
  now apply balance_isNumber.
Qed.

Lemma afterEvent_withinBounds (zone : Zone) (weatherDay : DailyWeather) :
  (0 <=? totalAvailableWaterMillimeters zone) = true ->
  finiteBalance zone weatherDay = true ->
  withinBounds zone (depletionAfterEvent zone weatherDay).
Proof.
  intros Htaw Hf. apply clamped_withinBounds; [exact Htaw |].
  now apply balance_isNumber.
Qed.

Lemma processDay_withinBounds (zone : Zone) (weatherDay : DailyWeather) (D : number)
    (schedule : list IrrigationScheduleEntry)
    (state' : number * list IrrigationScheduleEntry) :
  (0 <=? totalAvailableWaterMillimeters zone) = true ->
  is_nan D = false -> finiteBalance zone weatherDay = true ->
  processDay zone (D, schedule) weatherDay = Some state' ->
  withinBounds zone (fst state').
Proof.
  intros Htaw HD Hf E.
  destruct (processDay_cases _ _ _ _ _ E) as [(_ & entry & _ & ->) | (_ & ->)];
    cbn [fst]; apply clamped_withinBounds; try exact Htaw;
    eapply withinBounds_isNumber;
    [now apply afterEvent_withinBounds | now apply advance_withinBounds].
Qed.

Lemma processDays_withinBounds (zone : Zone) :
  (0 <=? totalAvailableWaterMillimeters zone) = true ->
  forall (days : list DailyWeather) (D : number)
      (schedule : list IrrigationScheduleEntry)
      (state' : number * list IrrigationScheduleEntry),
    withinBounds zone D ->
    Forall (fun day => finiteBalance zone day = true) days ->
    processDays zone (D, schedule) days = Some state' ->
    withinBounds zone (fst state').
Proof.
  intros Htaw. induction days as [| weatherDay rest IH];
    intros D schedule state' HD Hdays E.
  - cbn in E. inversion E. exact HD.
  - inversion Hdays as [| ? ? Hday Hrest]; subst. cbn [processDays] in E.
    destruct (processDay zone (D, schedule) weatherDay) as [[D1 s1] |] eqn:E1;
      [| discriminate].
    apply (IH D1 s1 state'); [| exact Hrest | exact E].
    exact (processDay_withinBounds zone weatherDay D schedule (D1, s1) Htaw
             (withinBounds_isNumber zone D HD) Hday E1).
Qed.

(** The depletion that triggers an entry lies within the bounds, whatever
    the weather: it has passed a comparison, so it is a number, and it is the
    result of a clamp. *)
Lemma triggered_withinBounds (zone : Zone) (weatherDay : DailyWeather)
    (carried : number) :
  (0 <=? totalAvailableWaterMillimeters zone) = true ->
  irrigationNeeded zone (advanceDepletion zone carried weatherDay) = true ->
  withinBounds zone (advanceDepletion zone carried weatherDay).
Proof.
  intros Htaw Hn. destruct (irrigationNeeded_isNumber _ _ Hn) as [HD _].
  unfold advanceDepletion in *. rewrite clampValue_nan in HD.
  apply orb_false_iff in HD as [_ HD]. apply orb_false_iff in HD as [_ HD].
  now apply clamped_withinBounds.
Qed.

End DriverBounds64.

Section ReportedFacts64.

Import Floats.
Import Binary64.
Local Open Scope float_scope.
Context `{Calendar}.

(** [Math.max(0, x)] is [NaN] for [NaN], [0] for anything up to zero, and
    [x] itself above. *)
Lemma Math_max_0_cases (x : number) :
  (is_nan x = true /\ Math_max 0 x = nan)
  \/ (is_nan x = false /\ (x <=? 0) = true /\ Math_max 0 x = 0)
  \/ ((0 <? x) = true /\ Math_max 0 x = x).
Proof.
  unfold Math_max. change (is_nan 0) with false. change (get_sign 0) with false.
  cbn [orb]. destruct (is_nan x) eqn:En; [now left | right].
  destruct (0 <? x) eqn:E0; [now right | left].
  split; [reflexivity |]. split; [now apply leb_total |].
  now destruct (x <? 0).
Qed.

Lemma ltb_irrefl (a : number) : (a <? a) = false.
Proof.
  destruct (a <? a) eqn:E; [| reflexivity].
  pose proof (leb_ltb_false a a (ltb_leb a a E)). congruence.
Qed.

Lemma Math_min_idempotent (a b : number) :
  Math_min a (Math_min a b) = Math_min a b.
Proof.
  destruct (is_nan a) eqn:Ea; [unfold Math_min; rewrite Ea; reflexivity |].
  destruct (is_nan b) eqn:Eb.
  { unfold Math_min at 2. rewrite Ea, Eb. cbn [orb].
    unfold Math_min. rewrite Ea, Eb. change (is_nan nan) with true. reflexivity. }
  unfold Math_min at 2. rewrite Ea, Eb. cbn [orb].
  destruct (a <? b) eqn:Eab; [| destruct (b <? a) eqn:Eba; [| destruct (get_sign a) eqn:Es]];
    unfold Math_min; rewrite ?Ea, ?Eb, ?Eab, ?Eba, ?Es, ?ltb_irrefl; cbn [orb];
    rewrite ?Eab, ?Eba, ?Es, ?ltb_irrefl; try reflexivity.
  now destruct (get_sign a).
Qed.

(** Clamping to [[0, max]] twice is clamping once, whatever the numbers. *)
Lemma clampValue_again (value max : number) :
  clampValue (clampValue value 0 max) 0 max = clampValue value 0 max.
Proof.
  unfold clampValue.
  destruct (Math_max_0_cases (Math_min max value)) as [[Hn ->] | [(Hn & Hle & ->) | [Hlt ->]]].
  - unfold Math_min at 1. change (is_nan nan) with true. rewrite orb_true_r.
    reflexivity.
  - rewrite Math_min_nan in Hn. apply orb_false_iff in Hn as [Hmax Hv].
    destruct (Math_min_cases max 0 Hmax eq_refl) as [[-> Hm] | [-> _]];
      [| reflexivity].
    destruct (Math_max_0_cases max) as [[Hn' _] | [(_ & _ & E) | [Hlt _]]];
      [congruence | exact E |].
    pose proof (leb_ltb_false _ _ Hm). congruence.
  - rewrite Math_min_idempotent.
    destruct (Math_max_0_cases (Math_min max value)) as [[Hn _] | [(_ & Hle & _) | [_ E]]];
      [| | exact E].
    + destruct (ltb_isNumber _ _ Hlt). congruence.
    + pose proof (leb_ltb_false _ _ Hle). congruence.
Qed.

(** A depletion that triggers is not negative. *)
Lemma triggered_notNegative (zone : Zone) (weatherDay : DailyWeather) (carried : number) :
  irrigationNeeded zone (advanceDepletion zone carried weatherDay) = true ->
  (0 <=? advanceDepletion zone carried weatherDay) = true.
Proof.
  intros Hn. destruct (irrigationNeeded_isNumber _ _ Hn) as [HD _].
  unfold advanceDepletion, clampValue in *.
  destruct (Math_max_0_cases
              (Math_min (totalAvailableWaterMillimeters zone)
                 (carried + cropEvapotranspiration zone weatherDay
                  - effectiveRainfallMillimeters weatherDay)))
    as [[_ E] | [(_ & _ & E) | [Hlt E]]]; rewrite E in *.
  - discriminate HD.
  - reflexivity.
  - now apply ltb_leb.
Qed.


Lemma leb_0_notBelowZero (x : number) :
  (0 <=? x) = true -> notBelowZero (Prim2SF x) = true.
Proof. rewrite leb_0_l. apply notNegative_notBelowZero. Qed.

Lemma div_notBelowZero (a b : number) :
  notBelowZero (Prim2SF a) = true -> (0 <? b) = true -> is_finite b = true ->
  notBelowZero (Prim2SF (a / b)) = true.
Proof.
  rewrite ltb_0_l, is_finite_spec, div_spec. intros Ha Hb Hf.
  now apply SFdiv_positive_notBelowZero.
Qed.

(** The gross depth is [NaN], an infinity, or not negative, when neither the
    efficiency nor TAW is negative. *)
Lemma gross_notBelowZero (zone : Zone) (D : number) :
  (0 <=? D) = true ->
  (0 <=? irrigationEfficiency zone) = true ->
  (0 <=? totalAvailableWaterMillimeters zone) = true ->
  notBelowZero (Prim2SF (grossIrrigationDepthMillimeters zone D)) = true.
Proof.
  intros HD He Ht. unfold grossIrrigationDepthMillimeters.
  apply Math_min_notBelowZero; [| now apply leb_0_notBelowZero].
  rewrite leb_0_l in HD, He. rewrite div_spec. now apply SFdiv_notBelowZero.
Qed.

(** ** What the planner's loop leaves behind *)

Lemma counterBelow_positive (N : number) :
  counterBelow 0 N = true -> (0 <? N) = true.
Proof.
  rewrite ltb_0_l. unfold counterBelow.
  destruct (Prim2SF N) as [s | [] | | [] m e]; cbn [isPositive negb signedMantissa];
    try congruence; try reflexivity.
  - intros E. apply Z.ltb_lt in E. lia.
  - pose proof (Z.pow_nonneg 2 e ltac:(lia)).
    destruct (0 <=? e)%Z; intros E; apply Z.ltb_lt in E; lia.
Qed.

Lemma iterations_finite (N : number) :
  iterations N <> None -> (0 <? N) = true -> is_finite N = true.
Proof.
  rewrite ltb_0_l, is_finite_spec. unfold iterations.
  destruct (Prim2SF N) as [s | [] | | [] m e]; cbn [isPositive isFiniteNumber];
    congruence.
Qed.

Lemma cycleLoop_reports (N d : number) (S : Dayjs) (K : number) :
  forall (fuel : nat) (i : Z) (t : number) (acc l : list IrrigationCycle),
    cycleLoop fuel i N d S K t acc = Some l ->
    Forall (fun c => durationMin c = roundTo1Decimal d) acc ->
    Forall (fun c => durationMin c = roundTo1Decimal d) l.
Proof.
  induction fuel as [| fuel IH]; intros i t acc l E Hacc; [discriminate |].
  rewrite cycleLoop_unfold in E. destruct (counterBelow i N).
  - apply (IH _ _ _ _ E). apply Forall_app. split; [exact Hacc |].
    constructor; [reflexivity | constructor].
  - inversion E; subst l. exact Hacc.
Qed.

(** A plan that holds a cycle was asked for a runtime that is not [<= 0];
    when the runtime was split, into a number of cycles that is positive and
    finite. *)
Lemma buildCyclePlan_inhabited (T M : number) (S : Dayjs) (K : number)
    (plan : list IrrigationCycle) (c : IrrigationCycle) :
  buildCyclePlan T M S K = Some plan -> In c plan ->
  (T <=? 0) = false
  /\ (((M <=? 0) || (T <=? M)) = false ->
      (0 <? Math_ceil (T / M)) = true /\ is_finite (Math_ceil (T / M)) = true).
Proof.
  unfold buildCyclePlan. intros E Hin.
  destruct (T <=? 0); [inversion E; subst plan; destruct Hin |].
  split; [reflexivity |]. intros Hsplit. rewrite Hsplit in E.
  set (N := Math_ceil (T / M)) in *.
  assert (Hend : iterations N <> None).
  { intros EN. unfold loopFuel in E. rewrite EN in E. discriminate E. }
  assert (Hpos : (0 <? N) = true).
  { apply counterBelow_positive. unfold loopFuel in E.
    destruct (iterations N) as [n |]; [| congruence].
    rewrite cycleLoop_unfold in E. destruct (counterBelow 0 N); [reflexivity |].
    inversion E; subst plan. destruct Hin. }
  split; [exact Hpos | now apply iterations_finite].
Qed.

Lemma buildCyclePlan_reports (T M : number) (S : Dayjs) (K : number)
    (plan : list IrrigationCycle) :
  buildCyclePlan T M S K = Some plan ->
  Forall (fun c => durationMin c = roundTo1Decimal (exactCycleMinutes T M)) plan.
Proof.
  unfold buildCyclePlan, exactCycleMinutes. intros E.
  destruct (T <=? 0); [inversion E; constructor |].
  destruct ((M <=? 0) || (T <=? M)).
  - inversion E. constructor; [reflexivity | constructor].
  - destruct (cycleLoop _ _ _ _ _ _ _ _) as [l |] eqn:El; [| discriminate].
    inversion E; subst plan. apply Forall_rev.
    exact (cycleLoop_reports _ _ _ _ _ _ _ _ _ El (Forall_nil _)).
Qed.

(** The unrounded duration of the cycles of a plan is never a finite number
    below zero. *)
Lemma exactCycleMinutes_notBelowZero (T M : number) (S : Dayjs) (K : number)
    (plan : list IrrigationCycle) (c : IrrigationCycle) :
  buildCyclePlan T M S K = Some plan -> In c plan ->
  notBelowZero (Prim2SF (exactCycleMinutes T M)) = true.
Proof.
  intros E Hin. destruct (buildCyclePlan_inhabited _ _ _ _ _ _ E Hin) as [HT Hsplit].
  apply leb_0_r_false in HT. unfold exactCycleMinutes.
  destruct ((M <=? 0) || (T <=? M)); [exact HT |].
  destruct (Hsplit eq_refl) as [Hpos Hfin]. now apply div_notBelowZero.
Qed.


(** ** Division by a precipitation rate of zero *)





End ReportedFacts64.

Section DriverSpec64.

Import Floats.
Import Binary64.
Local Open Scope float_scope.
Context `{Calendar}.


(** C4.  Whenever the call returns, every entry applies the gross depth
    [min(D / irrigationEfficiency, TAW)] of the depletion [D] that triggered
    it, reported rounded to one decimal.  That depth is never above TAW - as
    long as the quotient is a number at all, which it is for an efficiency
    that is positive and finite - and the depletion after irrigation is
    reported as 0 whether the cap was reached or not. *)
Theorem gross_depth_capped_at_TAW (zone : Zone) (weatherHistory : list DailyWeather)
    (schedule : list IrrigationScheduleEntry) :
  planZoneSchedule zone weatherHistory = Some schedule ->
  Forall
    (fun entry =>
       exists weatherDay D,
         triggerDepletion zone weatherHistory weatherDay D
         /\ entryDate entry = date weatherDay
         /\ appliedDepthMm entry
            = roundTo1Decimal
                (Math_min (D / irrigationEfficiency zone)
                   (totalAvailableWaterMillimeters zone))
         /\ (is_nan (D / irrigationEfficiency zone) = false ->
             (Math_min (D / irrigationEfficiency zone)
                (totalAvailableWaterMillimeters zone)
              <=? totalAvailableWaterMillimeters zone) = true)
         /\ ((0 <? irrigationEfficiency zone) = true ->
             is_finite (irrigationEfficiency zone) = true ->
             is_nan (D / irrigationEfficiency zone) = false)
         /\ depletionAfterMm entry = 0)
    schedule.
Proof.
  intros E. eapply Forall_impl; [| exact (planZoneSchedule_emitted _ _ _ E)].
  intros entry (weatherDay & D & Hday & Hn & Hentry).
  destruct (scheduleEntry_fields _ _ _ _ Hentry) as (Hd & _ & _ & Ha & _ & Hc).
  destruct (irrigationNeeded_isNumber _ _ Hn) as [HD Hraw].
  apply mul_isNumber_r in Hraw.
  exists weatherDay, D. split; [exact Hday |]. split; [exact Hd |].
  split; [exact Ha |].
  split; [intros Hq; now apply Math_min_le_r |].
  split; [intros Hpos Hfin; now apply div_isNumber |].
  rewrite Hc. apply roundTo1Decimal_zero.
Qed.

(** C6.  The running depletion starts as
    [clamp(currentDepletionMm ?? 0, 0, TAW)], any number being clamped into
    the bounds without notice.  With TAW not negative and days whose crop
    evapotranspiration and effective rainfall are finite, it lies in
    [[0, TAW]] at every checkpoint of every day the loop reaches: on entry,
    after the weather is applied, after an irrigation and at the end of the
    day.  The depletion that triggers an entry lies in [[0, TAW]], before
    rounding, and the depletion after it is 0. *)
Theorem depletion_within_bounds (zone : Zone) (weatherHistory : list DailyWeather) :
  (0 <=? totalAvailableWaterMillimeters zone) = true ->
  is_nan (currentDepletionMm zone ?? 0) = false ->
  Forall (fun day => finiteBalance zone day = true) weatherHistory ->
  initialDepletionMillimeters zone
  = clampValue (currentDepletionMm zone ?? 0) 0 (totalAvailableWaterMillimeters zone)
  /\ withinBounds zone (initialDepletionMillimeters zone)
  /\ (forall before weatherDay after carried earlier,
        weatherHistory = before ++ weatherDay :: after ->
        processDays zone (initialDepletionMillimeters zone, []) before
        = Some (carried, earlier) ->
        withinBounds zone carried
        /\ withinBounds zone (advanceDepletion zone carried weatherDay)
        /\ withinBounds zone (depletionAfterEvent zone weatherDay)
        /\ forall state',
             processDay zone (carried, earlier) weatherDay = Some state' ->
             withinBounds zone (fst state'))
  /\ (forall schedule,
        planZoneSchedule zone weatherHistory = Some schedule ->
        Forall
          (fun entry =>
             exists weatherDay D,
               triggerDepletion zone weatherHistory weatherDay D
               /\ entryDate entry = date weatherDay
               /\ depletionBeforeMm entry = roundTo1Decimal D
               /\ withinBounds zone D
               /\ depletionAfterIrrigation = 0
               /\ depletionAfterMm entry = roundTo1Decimal depletionAfterIrrigation)
          schedule).
Proof.
  intros Htaw Hcur Hdays.
  assert (Hinit : withinBounds zone (initialDepletionMillimeters zone))
    by now apply clamped_withinBounds.
  split; [reflexivity |]. split; [exact Hinit |]. split.
  - intros before weatherDay after carried earlier -> Hrun.
    apply Forall_app in Hdays as [Hbefore Hrest].
    inversion Hrest as [| ? ? Hday _]; subst.
    pose proof (processDays_withinBounds zone Htaw before _ [] (carried, earlier)
                  Hinit Hbefore Hrun) as Hc.
    cbn [fst] in Hc. pose proof (withinBounds_isNumber zone carried Hc) as Hnum.
    split; [exact Hc |].
    split; [now apply advance_withinBounds |].
    split; [now apply afterEvent_withinBounds |].
    intros state' E1. now apply (processDay_withinBounds zone weatherDay carried earlier).
  - intros schedule E.
    eapply Forall_impl; [| exact (planZoneSchedule_emitted _ _ _ E)].
    intros entry (weatherDay & D & Hday & Hn & Hentry).
    destruct (scheduleEntry_fields _ _ _ _ Hentry) as (Hd & _ & _ & _ & Hb & Hc).
    exists weatherDay, D. split; [exact Hday |]. split; [exact Hd |].
    split; [exact Hb |].
    split; [| split; [reflexivity | exact Hc]].
    destruct Hday as (before & after & carried & s & _ & _ & ->).
    now apply triggered_withinBounds.
Qed.

(** C10.  Whenever the call returns, the depletion [D] that triggered an
    entry - of which [depletionBeforeMm] is the rounding to one decimal - is
    at least RAW, the product of the allowable depletion fraction and TAW. *)
Theorem depletion_before_at_least_RAW (zone : Zone) (weatherHistory : list DailyWeather)
    (schedule : list IrrigationScheduleEntry) :
  planZoneSchedule zone weatherHistory = Some schedule ->
  readilyAvailableWaterMillimeters zone
  = allowableDepletionFraction zone * totalAvailableWaterMillimeters zone
  /\ Forall
       (fun entry =>
          exists weatherDay D,
            triggerDepletion zone weatherHistory weatherDay D
            /\ entryDate entry = date weatherDay
            /\ depletionBeforeMm entry = roundTo1Decimal D
            /\ (readilyAvailableWaterMillimeters zone <=? D) = true)
       schedule.
Proof.
  intros E. split; [reflexivity |].
  eapply Forall_impl; [| exact (planZoneSchedule_emitted _ _ _ E)].
  intros entry (weatherDay & D & Hday & Hn & Hentry).
  destruct (scheduleEntry_fields _ _ _ _ Hentry) as (Hd & _ & _ & _ & Hb & _).
  exists weatherDay, D. auto.
Qed.

(** C8.  Whenever the call returns, every quantity an entry reports is its
    value rounded to one decimal, a half away from zero, on [value * 10]: the
    applied depth of the gross depth, the depletion before of the depletion
    that triggered, the depletion after of 0, and the duration of every cycle
    of the unrounded duration.  [roundTo1Decimal] uses [Math.round], whose
    ties go towards [+Infinity]; the two agree on everything but a finite
    value below zero, which a zone whose efficiency and TAW are not negative
    never reports. *)
Theorem reported_values_rounded_half_away (zone : Zone)
    (weatherHistory : list DailyWeather) (schedule : list IrrigationScheduleEntry) :
  (0 <=? irrigationEfficiency zone) = true ->
  (0 <=? totalAvailableWaterMillimeters zone) = true ->
  planZoneSchedule zone weatherHistory = Some schedule ->
  Forall
    (fun entry =>
       exists weatherDay D,
         triggerDepletion zone weatherHistory weatherDay D
         /\ entryDate entry = date weatherDay
         /\ appliedDepthMm entry
            = roundTo1DecimalHalfAway (grossIrrigationDepthMillimeters zone D)
         /\ depletionBeforeMm entry = roundTo1DecimalHalfAway D
         /\ depletionAfterMm entry = roundTo1DecimalHalfAway depletionAfterIrrigation
         /\ Forall
              (fun c =>
                 durationMin c
                 = roundTo1DecimalHalfAway
                     (exactCycleMinutes (totalRunTimeMinutes zone D)
                        (maximumCycleMinutes zone D)))
              (cycles entry))
    schedule.
Proof.
  intros Heff Htaw E.
  eapply Forall_impl; [| exact (planZoneSchedule_emitted _ _ _ E)].
  intros entry (weatherDay & D & Hday & Hn & Hentry).
  destruct (scheduleEntry_fields _ _ _ _ Hentry) as (Hd & _ & Hcycles & Ha & Hb & Hc).
  assert (HD : (0 <=? D) = true).
  { destruct Hday as (before & after & carried & s & _ & _ & ->).
    now apply triggered_notNegative. }
  exists weatherDay, D. split; [exact Hday |]. split; [exact Hd |].
  split; [rewrite Ha; now apply roundTo1Decimal_half_away, gross_notBelowZero |].
  split; [rewrite Hb; now apply roundTo1Decimal_half_away, leb_0_notBelowZero |].
  split; [rewrite Hc; now apply roundTo1Decimal_half_away |].
  unfold cycleList in Hcycles.
  pose proof (buildCyclePlan_reports _ _ _ _ _ Hcycles) as Hdur.
  apply Forall_forall. intros c Hin.
  rewrite Forall_forall in Hdur. rewrite (Hdur c Hin).
  apply roundTo1Decimal_half_away.
  exact (exactCycleMinutes_notBelowZero _ _ _ _ _ c Hcycles Hin).
Qed.


End DriverSpec64.

(** * Further properties in binary64 *)

Section HelperProperties64.

Import Floats.
Import Binary64.
Local Open Scope float_scope.

Lemma roundTo1Decimal_nan (v : number) :
  is_nan v = true -> is_nan (roundTo1Decimal v) = true.
Proof.
  rewrite !is_nan_spec. intros Hv. apply negb_true_iff in Hv.
  assert (E : Prim2SF (v * 10) = S754_nan).
  { rewrite mul_spec. destruct (Prim2SF v); try discriminate. reflexivity. }
  unfold roundTo1Decimal, Math_round. rewrite E, div_spec, E. reflexivity.
Qed.

(** X4.  [roundTo1Decimal] in binary64: a number that is not negative stays
    so, [NaN] stays [NaN], the infinities stay what they are - and so does
    what overflows on the way: [value * 10] is a binary64 product.  On
    everything but a finite value below zero it rounds a half away from
    zero. *)
Theorem roundTo1Decimal_binary64 (v : number) :
  ((0 <=? v) = true -> (0 <=? roundTo1Decimal v) = true)
  /\ (is_nan v = true -> is_nan (roundTo1Decimal v) = true)
  /\ (notBelowZero (Prim2SF v) = true ->
      roundTo1Decimal v = roundTo1DecimalHalfAway v)
  /\ roundTo1Decimal infinity = infinity
  /\ roundTo1Decimal neg_infinity = neg_infinity
  /\ roundTo1Decimal 1e308 = infinity.
Proof.
  split; [apply roundTo1Decimal_notNegative |].
  split; [apply roundTo1Decimal_nan |].
  split; [apply roundTo1Decimal_half_away |].
  repeat split; vm_compute; reflexivity.
Qed.

End HelperProperties64.

Section CyclePlannerProperties64.

Import Floats.
Import Binary64.
Local Open Scope float_scope.






End CyclePlannerProperties64.

Section DriverProperties64.

Import Floats.
Import Binary64.
Local Open Scope float_scope.
Context `{Calendar}.

(** X10.  A day that does not trigger returns, with the schedule as it was.
    Whenever a day returns, the closing clamp changes nothing: the depletion
    carried into the next day is the advanced depletion of a day without
    irrigation, and the rest of the day's balance, counted from 0, of a day
    with one. *)
Theorem carried_depletion (zone : Zone) (D : number)
    (schedule : list IrrigationScheduleEntry) (weatherDay : DailyWeather) :
  (irrigationNeeded zone (advanceDepletion zone D weatherDay) = false ->
   processDay zone (D, schedule) weatherDay
   = Some (advanceDepletion zone D weatherDay, schedule))
  /\ (forall state',
        processDay zone (D, schedule) weatherDay = Some state' ->
        fst state'
        = if irrigationNeeded zone (advanceDepletion zone D weatherDay)
          then depletionAfterEvent zone weatherDay
          else advanceDepletion zone D weatherDay).
Proof.
  split.
  - intros Hn. cbv beta iota zeta delta [processDay]. rewrite Hn.
    unfold advanceDepletion. now rewrite clampValue_again.
  - intros state' E.
    destruct (processDay_cases _ _ _ _ _ E) as [(Hn & entry & _ & ->) | (Hn & ->)];
      rewrite Hn; cbn [fst].
    + unfold depletionAfterEvent. apply clampValue_again.
    + unfold advanceDepletion. apply clampValue_again.
Qed.

(** X11.  Whenever the call returns, the dates of the entries are dates of
    the weather history, in its order and at most one entry a day, and every
    entry carries the id of the zone; a zone that is switched off returns an
    empty schedule, whatever the weather. *)
Theorem schedule_dates_follow_weather (zone : Zone) (weatherHistory : list DailyWeather)
    (schedule : list IrrigationScheduleEntry) :
  planZoneSchedule zone weatherHistory = Some schedule ->
  Subsequence (map entryDate schedule) (map date weatherHistory)
  /\ (List.length schedule <= List.length weatherHistory)%nat
  /\ Forall (fun entry => zoneId entry = id zone) schedule
  /\ (isEnabled zone = Some false -> schedule = []).
Proof.
  unfold planZoneSchedule. intros E.
  assert (Hrun : (isEnabled zone = Some false /\ schedule = [])
                 \/ (isEnabled zone <> Some false
                     /\ exists D, processDays zone (initialDepletionMillimeters zone, [])
                                    weatherHistory = Some (D, schedule))).
  { destruct (isEnabled zone) as [[|] |];
      [right | left; split; congruence | right];
      (split; [congruence |]);
      (destruct (processDays zone _ weatherHistory) as [[D s] |]; [| discriminate]);
      inversion E; subst s; now exists D. }
  destruct Hrun as [[Hoff ->] | [Hon [D Hrun]]].
  - cbn [map List.length]. split; [apply Subsequence_empty |].
    split; [lia |]. split; [constructor | reflexivity].
  - destruct (processDays_appends zone weatherHistory _ _ Hrun)
      as (entries & triggered & Es & Hsub & Hmap & Hid).
    cbn [snd app] in Es. subst entries.
    pose proof (Subsequence_map date _ _ Hsub) as Hdates. rewrite <- Hmap in Hdates.
    split; [exact Hdates |].
    split; [| split; [exact Hid | contradiction]].
    apply Subsequence_shorter in Hdates. now rewrite !length_map in Hdates.
Qed.



End DriverProperties64.

(** ** Closed instances in binary64 *)

Section Instances64.

Import Floats.
Import Binary64.
Local Open Scope float_scope.
Local Existing Instance uniformCalendar.

Lemma returned {A : Type} (o : option A) :
  match o with Some _ => true | None => false end = true -> exists v, o = Some v.
Proof. destruct o as [v |]; [now exists v | discriminate]. Qed.




(** The capped zone over three dry days: every entry applies TAW = 45 mm. *)
Lemma gross_depth_capped_at_TAW_witness :
  exists schedule,
    planZoneSchedule cappedZone (createDryPeriod 3 2) = Some schedule
    /\ Forall
         (fun entry =>
            exists D,
              appliedDepthMm entry
              = roundTo1Decimal
                  (Math_min (D / irrigationEfficiency cappedZone)
                     (totalAvailableWaterMillimeters cappedZone))
              /\ depletionAfterMm entry = 0)
         schedule.
Proof.
  destruct (returned (planZoneSchedule cappedZone (createDryPeriod 3 2)))
    as [schedule E]; [vm_compute; reflexivity |].
  exists schedule. split; [exact E |].
  eapply Forall_impl;
    [| exact (gross_depth_capped_at_TAW cappedZone (createDryPeriod 3 2) schedule E)].
  intros entry (weatherDay & D & _ & _ & Ha & _ & _ & Hc).
  exists D. split; [exact Ha | exact Hc].
Defined.

Lemma depletion_within_bounds_witness :
  (0 <=? totalAvailableWaterMillimeters seedZone) = true
  /\ is_nan (currentDepletionMm seedZone ?? 0) = false
  /\ Forall (fun day => finiteBalance seedZone day = true) (createDryPeriod 7 2)
  /\ withinBounds seedZone (initialDepletionMillimeters seedZone).
Proof.
  assert (Ht : (0 <=? totalAvailableWaterMillimeters seedZone) = true)
    by (vm_compute; reflexivity).
  assert (Hc : is_nan (currentDepletionMm seedZone ?? 0) = false)
    by (vm_compute; reflexivity).
  assert (Hw : Forall (fun day => finiteBalance seedZone day = true)
                 (createDryPeriod 7 2))
    by (repeat constructor).
  split; [exact Ht |]. split; [exact Hc |]. split; [exact Hw |].
  exact (proj1 (proj2 (depletion_within_bounds seedZone (createDryPeriod 7 2)
                         Ht Hc Hw))).
Defined.

Lemma depletion_before_at_least_RAW_witness :
  exists schedule,
    planZoneSchedule seedZone (createDryPeriod 7 2) = Some schedule
    /\ Forall
         (fun entry =>
            exists D,
              depletionBeforeMm entry = roundTo1Decimal D
              /\ (readilyAvailableWaterMillimeters seedZone <=? D) = true)
         schedule.
Proof.
  destruct (returned (planZoneSchedule seedZone (createDryPeriod 7 2)))
    as [schedule E]; [vm_compute; reflexivity |].
  exists schedule. split; [exact E |].
  eapply Forall_impl;
    [| exact (proj2 (depletion_before_at_least_RAW seedZone (createDryPeriod 7 2)
                       schedule E))].
  intros entry (weatherDay & D & _ & _ & Hb & Hr).
  exists D. split; [exact Hb | exact Hr].
Defined.

Lemma reported_values_rounded_half_away_witness :
  (0 <=? irrigationEfficiency seedZone) = true
  /\ (0 <=? totalAvailableWaterMillimeters seedZone) = true
  /\ exists schedule,
       planZoneSchedule seedZone (createDryPeriod 7 2) = Some schedule
       /\ Forall
            (fun entry =>
               exists D,
                 depletionBeforeMm entry = roundTo1DecimalHalfAway D
                 /\ appliedDepthMm entry
                    = roundTo1DecimalHalfAway (grossIrrigationDepthMillimeters seedZone D))
            schedule.
Proof.
  assert (He : (0 <=? irrigationEfficiency seedZone) = true) by (vm_compute; reflexivity).
  assert (Ht : (0 <=? totalAvailableWaterMillimeters seedZone) = true)
    by (vm_compute; reflexivity).
  destruct (returned (planZoneSchedule seedZone (createDryPeriod 7 2)))
    as [schedule E]; [vm_compute; reflexivity |].
  split; [exact He |]. split; [exact Ht |].
  exists schedule. split; [exact E |].
  eapply Forall_impl;
    [| exact (reported_values_rounded_half_away seedZone (createDryPeriod 7 2)
                schedule He Ht E)].
  intros entry (weatherDay & D & _ & _ & Ha & Hb & _).
  exists D. split; [exact Hb | exact Ha].
Defined.



(** ** Closed instances of the further properties *)


(** The second of three dry days for the seed zone: no irrigation, and the
    depletion carried on is the advanced one. *)
Lemma carried_depletion_witness :
  irrigationNeeded seedZone (advanceDepletion seedZone 1.7 (dryDay 1 2)) = false
  /\ processDay seedZone (1.7, []) (dryDay 1 2)
     = Some (advanceDepletion seedZone 1.7 (dryDay 1 2), []).
Proof.
  assert (Hn : irrigationNeeded seedZone (advanceDepletion seedZone 1.7 (dryDay 1 2))
               = false) by (vm_compute; reflexivity).
  split; [exact Hn |].
  exact (proj1 (carried_depletion seedZone 1.7 [] (dryDay 1 2)) Hn).
Defined.

Lemma schedule_dates_follow_weather_witness :
  exists schedule,
    planZoneSchedule seedZone (createDryPeriod 7 2) = Some schedule
    /\ Subsequence (map entryDate schedule) (map date (createDryPeriod 7 2))
    /\ (List.length schedule <= 7)%nat.
Proof.
  destruct (returned (planZoneSchedule seedZone (createDryPeriod 7 2)))
    as [schedule E]; [vm_compute; reflexivity |].
  exists schedule. split; [exact E |].
  destruct (schedule_dates_follow_weather seedZone (createDryPeriod 7 2) schedule E)
    as (Hsub & Hlen & _).
  split; [exact Hsub | exact Hlen].
Defined.


(** X23.  Runs in binary64.  The seed scenario gives one entry on the first
    day, 26.7 mm before and 33.4 mm applied, in two cycles reported at 111.3
    minutes, the later of which, by its reported duration, ends 3 seconds
    after the 06:00 sunrise.  A depletion of 20 mm reaches RAW on the second
    dry day, at 23.4 mm, and 23.4 / 0.8 rounds to 29.2, not 29.3.  A depletion
    of 17.4 mm adds up to 22.499999999999996 mm over three days and never
    reaches RAW = 22.5.  A runtime of 118.13325096691237 minutes against a
    maximum of 13.125916774101373 is split into 9 cycles, each a little
    longer than the maximum. *)
Theorem binary64_runs :
  planZoneSchedule seedZone (createDryPeriod 7 2)
  = Some [{| entryDate := Some 0%Z;
             zoneId := "test-zone-001";
             cycles := [{| startTime := Some 7350000%Z; durationMin := 111.3 |};
                        {| startTime := Some 14925000%Z; durationMin := 111.3 |}];
             appliedDepthMm := 33.4;
             depletionBeforeMm := 26.7;
             depletionAfterMm := 0 |}]
  /\ DayjsOps.add (Some 14925000%Z) 111.3 = Some (21600000 + 3000)%Z
  /\ planZoneSchedule (withDepletion testZone 20) (createDryPeriod 3 2)
     = Some [{| entryDate := Some 86400000%Z;
                zoneId := "test-zone-001";
                cycles := [{| startTime := Some 95400000%Z; durationMin := 97.5 |};
                           {| startTime := Some 102150000%Z; durationMin := 97.5 |}];
                appliedDepthMm := 29.2;
                depletionBeforeMm := 23.4;
                depletionAfterMm := 0 |}]
  /\ 17.4 + 1.7 + 1.7 + 1.7 = 22.499999999999996
  /\ planZoneSchedule (withDepletion testZone 17.4) (createDryPeriod 3 2) = Some []
  /\ (exists plan,
        buildCyclePlan 118.13325096691237 13.125916774101373 (Some 21600000%Z) 15
        = Some plan
        /\ List.length plan = 9%nat
        /\ (13.125916774101373 <? 118.13325096691237 / 9) = true).
Proof.
  repeat (split; [vm_compute; reflexivity |]).
  eexists. repeat split; vm_compute; reflexivity.
Qed.

End Instances64.
